(** * Upload service (app.py): a shallow embedding and its properties

    The service is a Flask application with three JSON endpoints in front of
    an Azure blob container: [upload], [gallery] and [health].  This file
    embeds the handlers, the two helpers [is_allowed_file] and
    [generate_blob_name], and the library functions they call
    (str methods, werkzeug's [secure_filename], the container client),
    and proves the properties claimed of them. *)

From Stdlib Require Import NArith Ascii String List Lia Bool.
From stdpp Require Import base option list gmap sorting.

Local Open Scope N_scope.

(** ** Python strings

    A Python [str] is a sequence of Unicode code points.  A code point is
    a number; string literals of the source are written as Rocq strings and
    read through [s2p]. *)

Abbreviation codepoint := N (only parsing).
Abbreviation pystr := (list N) (only parsing).

Fixpoint s2p (s : string) : pystr :=
  match s with
  | EmptyString => []
  | String a s' => N_of_ascii a :: s2p s'
  end.

Module Py.

Definition is_ascii (c : codepoint) : bool := c <? 128.
Definition is_ascii_upper (c : codepoint) : bool := (65 <=? c) && (c <=? 90).
Definition is_ascii_lower (c : codepoint) : bool := (97 <=? c) && (c <=? 122).
Definition is_ascii_digit (c : codepoint) : bool := (48 <=? c) && (c <=? 57).

(** The ASCII characters for which [str.isspace] holds: TAB, LF, VT, FF,
    CR, FS, GS, RS, US and SPACE. *)
Definition is_ascii_space (c : codepoint) : bool :=
  ((9 <=? c) && (c <=? 13)) || ((28 <=? c) && (c <=? 32)).

(** [x in s] for a one-character [x]. *)
Definition contains_char (x : codepoint) (s : pystr) : bool :=
  existsb (N.eqb x) s.

(** [s.startswith(p)] *)
Fixpoint startswith (s p : pystr) : bool :=
  match p, s with
  | [], _ => true
  | _ :: _, [] => false
  | b :: p', a :: s' => (a =? b) && startswith s' p'
  end.

(** [s.split(sep)] for a one-character [sep]: every occurrence cuts, empty
    pieces are kept, and the result is never empty. *)
Fixpoint split_on (p : codepoint -> bool) (s : pystr) : list pystr :=
  match s with
  | [] => [[]]
  | c :: s' =>
      if p c then [] :: split_on p s'
      else match split_on p s' with
           | w :: ws => (c :: w) :: ws
           | [] => [[c]]
           end
  end.

Definition nonempty (s : pystr) : bool :=
  match s with [] => false | _ :: _ => true end.

(** [s.split()] on an ASCII string: the maximal runs of characters that
    are not whitespace. *)
Definition split_ws (s : pystr) : list pystr :=
  filter (fun w => nonempty w = true) (split_on is_ascii_space s).

(** [sep.join(ws)] *)
Fixpoint join (sep : pystr) (ws : list pystr) : pystr :=
  match ws with
  | [] => []
  | [w] => w
  | w :: ws' => w ++ sep ++ join sep ws'
  end.

(** [s.replace(a, b)] for one-character [a] and [b]. *)
Definition replace_char (a b : codepoint) (s : pystr) : pystr :=
  map (fun c => if c =? a then b else c) s.

Fixpoint lstrip (chars : pystr) (s : pystr) : pystr :=
  match s with
  | [] => []
  | c :: s' => if contains_char c chars then lstrip chars s' else s
  end.

Definition rstrip (chars : pystr) (s : pystr) : pystr :=
  rev (lstrip chars (rev s)).

(** [s.strip(chars)] *)
Definition strip (chars : pystr) (s : pystr) : pystr :=
  rstrip chars (lstrip chars s).

(** [s.rsplit(sep, 1)] for a one-character [sep]: the string is cut at the
    last occurrence of [sep], or returned whole when there is none. *)
Fixpoint rsplit1_rev (sep : codepoint) (acc r : pystr) : list pystr :=
  match r with
  | [] => [acc]
  | c :: r' => if c =? sep then [rev r'; acc]
               else rsplit1_rev sep (c :: acc) r'
  end.

Definition rsplit1 (sep : codepoint) (s : pystr) : list pystr :=
  rsplit1_rev sep [] (rev s).

(** Code-point order of [str], as used by [<=] and by [list.sort]. *)
Fixpoint leb (a b : pystr) : bool :=
  match a, b with
  | [], _ => true
  | _ :: _, [] => false
  | x :: a', y :: b' => (x <? y) || ((x =? y) && leb a' b')
  end.

Fixpoint eqb (a b : pystr) : bool :=
  match a, b with
  | [], [] => true
  | x :: a', y :: b' => (x =? y) && eqb a' b'
  | _, _ => false
  end.

(** [x in xs] for a collection of strings *)
Definition mem (x : pystr) (xs : list pystr) : bool := existsb (eqb x) xs.

Definition ascii_lower (c : codepoint) : codepoint :=
  if is_ascii_upper c then c + 32 else c.
Definition ascii_upper (c : codepoint) : codepoint :=
  if is_ascii_lower c then c - 32 else c.

End Py.

(** ** The Unicode character database

    [str.lower] and [unicodedata.normalize] read tables of the Unicode
    character database for the code points outside ASCII.  The tables are
    parameters of the development. *)

Record Ucd := {
  (** full lowercase mapping of a code point outside ASCII *)
  ucd_lower : codepoint -> pystr;
  (** full compatibility decomposition of a code point outside ASCII *)
  ucd_decomp : codepoint -> pystr
}.

(** The one fact of the lowercase table that is used: outside ASCII no
    code point lowers to a string of ASCII characters, KELVIN SIGN
    (U+212A, which lowers to "k") apart. *)
Definition lower_table_ok (u : Ucd) : Prop :=
  forall c, 128 <= c ->
    existsb (fun d => (128 <=? d) || (d =? 107)) (ucd_lower u c) = true.

(** [s.lower()] *)
Definition py_lower (u : Ucd) (s : pystr) : pystr :=
  flat_map (fun c => if Py.is_ascii c then [Py.ascii_lower c]
                     else ucd_lower u c) s.

(** [unicodedata.normalize("NFKD", s)], up to the order of combining marks:
    every code point is replaced by its decomposition.  (The canonical
    reordering that follows moves combining marks only; they are outside
    ASCII and the next step of [secure_filename] drops them.) *)
Definition nfkd (u : Ucd) (s : pystr) : pystr :=
  flat_map (fun c => if Py.is_ascii c then [c] else ucd_decomp u c) s.

(** [s.encode("ascii", "ignore").decode("ascii")] *)
Definition encode_ascii_ignore (s : pystr) : pystr :=
  filter (fun c => Py.is_ascii c = true) s.

(** A small table for examples: LATIN SMALL LETTER E WITH ACUTE decomposes
    to "e" and COMBINING ACUTE ACCENT, KELVIN SIGN lowers to "k". *)
Definition sample_ucd : Ucd := {|
  ucd_lower := fun c => if c =? 8490 then [107] else [c];
  ucd_decomp := fun c => if c =? 233 then [101; 769] else [c]
|}.

(** ** The helpers of app.py *)

Definition ALLOWED_EXTENSIONS : list pystr :=
  [s2p "png"; s2p "jpg"; s2p "jpeg"; s2p "gif"; s2p "bmp"; s2p "webp";
   s2p "tiff"].

Definition DOT : codepoint := 46.

(** [is_allowed_file]: ['.' in filename and
    filename.rsplit('.', 1)[1].lower() in ALLOWED_EXTENSIONS].  The index
    [[1]] exists whenever the first conjunct holds ([rsplit1_length]). *)
Definition is_allowed_file (u : Ucd) (filename : pystr) : bool :=
  Py.contains_char DOT filename
  && match nth_error (Py.rsplit1 DOT filename) 1 with
     | Some ext => Py.mem (py_lower u ext) ALLOWED_EXTENSIONS
     | None => false
     end.

(** *** werkzeug.utils.secure_filename *)

(** What [secure_filename] reads of the [os] module: [os.sep],
    [os.path.altsep] and whether [os.name] is "nt". *)
Inductive Platform := posix | nt.

Definition os_sep (p : Platform) : codepoint :=
  match p with posix => 47 | nt => 92 end.
Definition os_altsep (p : Platform) : option N :=
  match p with posix => None | nt => Some 47 end.
Definition os_name_nt (p : Platform) : bool :=
  match p with posix => false | nt => true end.

(** The class [[A-Za-z0-9_.-]] whose complement [_filename_ascii_strip_re]
    deletes. *)
Definition is_key_char (c : codepoint) : bool :=
  Py.is_ascii_upper c || Py.is_ascii_lower c || Py.is_ascii_digit c
  || (c =? 95) || (c =? 46) || (c =? 45).

Definition filename_ascii_strip (s : pystr) : pystr :=
  filter (fun c => is_key_char c = true) s.

(** [_windows_device_files], as of werkzeug 3.1: CON, PRN, AUX, NUL,
    COM1 to COM9 and LPT1 to LPT9. *)
Definition windows_device_files : list pystr :=
  [s2p "CON"; s2p "PRN"; s2p "AUX"; s2p "NUL"]
  ++ map (fun i => s2p "COM" ++ [48 + i]) [1;2;3;4;5;6;7;8;9]
  ++ map (fun i => s2p "LPT" ++ [48 + i]) [1;2;3;4;5;6;7;8;9].

Definition replace_seps (p : Platform) (s : pystr) : pystr :=
  let s1 := Py.replace_char (os_sep p) 32 s in
  match os_altsep p with
  | Some a => Py.replace_char a 32 s1
  | None => s1
  end.

Definition secure_filename (u : Ucd) (p : Platform) (filename : pystr) : pystr :=
  let filename := nfkd u filename in
  let filename := encode_ascii_ignore filename in
  let filename := replace_seps p filename in
  let filename :=
    Py.strip (s2p "._")
      (filename_ascii_strip (Py.join (s2p "_") (Py.split_ws filename))) in
  if os_name_nt p && Py.nonempty filename
     && Py.mem (map Py.ascii_upper (hd [] (Py.split_on (N.eqb DOT) filename)))
               windows_device_files
  then 95 :: filename
  else filename.

(** *** The clock and the key *)

(** What [datetime.utcnow()] returns.  The fields are in the ranges of
    Python's [datetime]; see [datetime_ok]. *)
Record datetime := {
  year : N; month : N; day : N;
  hour : N; minute : N; second : N;
  microsecond : N
}.

Definition datetime_ok (d : datetime) : Prop :=
  1000 <= year d <= 9999 /\ 1 <= month d <= 12 /\ 1 <= day d <= 31 /\
  hour d <= 23 /\ minute d <= 59 /\ second d <= 59 /\ microsecond d <= 999999.

Definition digit (n : N) : codepoint := 48 + n mod 10.
Definition pad2 (n : N) : pystr := [digit (n / 10); digit n].
Definition pad4 (n : N) : pystr :=
  [digit (n / 1000); digit (n / 100); digit (n / 10); digit n].

(** [d.strftime('%Y%m%dT%H%M%S')], for the years of four digits that
    [datetime_ok] asks for (for earlier years the C library decides whether
    the year is padded). *)
Definition strftime (d : datetime) : pystr :=
  pad4 (year d) ++ pad2 (month d) ++ pad2 (day d) ++ s2p "T"
  ++ pad2 (hour d) ++ pad2 (minute d) ++ pad2 (second d).

(** The f-string of [generate_blob_name], given the clock reading. *)
Definition blob_name_at (u : Ucd) (p : Platform) (now : datetime)
    (original_filename : pystr) : pystr :=
  let timestamp := strftime now in
  let safe_filename := secure_filename u p original_filename in
  timestamp ++ s2p "-" ++ safe_filename.

(** ** The world of a request

    A handler runs against the blob container, the clock and the network.
    The container maps blob names to blobs.  The network is scripted:
    [faults] gives, for each store call to come, the [str] of the exception
    it raises, or [None] when it succeeds (when the script is exhausted,
    calls succeed).  Every store call is recorded in [calls], oldest
    first; [StoreCall] lists the calls of the container API that write,
    delete or read. *)

Record Blob := {
  blob_bytes : list Byte.byte;
  blob_content_type : pystr
}.

Inductive StoreCall :=
  | UploadBlob (name : pystr) (b : Blob) (overwrite : bool)
  | DeleteBlob (name : pystr)
  | ListBlobs
  | GetContainerProperties.

Record World := {
  container : gmap (list N) Blob;
  now : datetime;
  faults : list (option (list N));
  calls : list StoreCall
}.

Definition set_container (m : gmap (list N) Blob) (w : World) : World :=
  {| container := m; now := now w; faults := faults w; calls := calls w |}.
Definition set_now (d : datetime) (w : World) : World :=
  {| container := container w; now := d; faults := faults w; calls := calls w |}.
Definition set_faults (fs : list (option (list N))) (w : World) : World :=
  {| container := container w; now := now w; faults := fs; calls := calls w |}.
Definition log_call (c : StoreCall) (w : World) : World :=
  {| container := container w; now := now w; faults := faults w;
     calls := calls w ++ [c] |}.

(** An exception, as far as the handlers look at it: [str(e)]. *)
Record Exn := { exn_str : pystr }.

(** Computations that read and write the world and may raise. *)
Definition Handler (A : Type) : Type := World -> (Exn + A) * World.

#[global] Instance Handler_ret : MRet Handler :=
  fun A (a : A) w => (inr a, w).
#[global] Instance Handler_bind : MBind Handler :=
  fun A B (f : A -> Handler B) (m : Handler A) w =>
    match m w with
    | (inl e, w') => (inl e, w')
    | (inr a, w') => f a w'
    end.

Definition raise {A} (e : Exn) : Handler A := fun w => (inl e, w).

(** [try: body except Exception as e: handler(e)].  What the body did to
    the world before it raised stays done. *)
Definition try_except {A} (body : Handler A) (handler : Exn -> Handler A)
    : Handler A :=
  fun w => match body w with
           | (inl e, w') => handler e w'
           | (inr a, w') => (inr a, w')
           end.

(** [datetime.utcnow()] *)
Definition utcnow : Handler datetime := fun w => (inr (now w), w).

(** *** The container client *)

Record ContainerClient := { url : pystr }.

(** What the network script says of the next store call. *)
Definition next_fault (w : World) : option (list N) :=
  match faults w with
  | Some e :: _ => Some e
  | _ => None
  end.

(** One round trip to the store: the call is recorded, the script moves
    on, and the network decides whether the call raises. *)
Definition store_call (c : StoreCall) : Handler unit :=
  fun w =>
    let w' := set_faults (tail (faults w)) (log_call c w) in
    match next_fault w with
    | Some e => (inl {| exn_str := e |}, w')
    | None => (inr tt, w')
    end.

(** What the service does with a write that reached it: with
    [overwrite] the blob replaces the one of the same name, without it an
    existing name is refused. *)
Definition write_blob (name : pystr) (b : Blob) (overwrite : bool)
    : Handler unit :=
  fun w =>
    match container w !! name with
    | Some _ =>
        if overwrite then (inr tt, set_container (<[name := b]> (container w)) w)
        else (inl {| exn_str := s2p "The specified blob already exists." |}, w)
    | None => (inr tt, set_container (<[name := b]> (container w)) w)
    end.

(** [blob_client.upload_blob(data, overwrite=..., content_settings=...)] *)
Definition upload_blob (name : pystr) (data : list Byte.byte)
    (overwrite : bool) (content_settings : pystr) : Handler unit :=
  let b := {| blob_bytes := data; blob_content_type := content_settings |} in
  store_call (UploadBlob name b overwrite);;
  write_blob name b overwrite.

(** The names of the blobs, in the order of the map.  The order in which
    the service lists them is not modelled; [gallery] sorts what it gets,
    and its answer is shown below to be the same for every order. *)
Definition blob_names : Handler (list (list N)) :=
  fun w => (inr (map fst (map_to_list (container w))), w).

(** [cc.list_blobs()], iterated to the end: the names of all blobs. *)
Definition list_blobs (c : ContainerClient) : Handler (list (list N)) :=
  store_call ListBlobs;;
  blob_names.

(** [cc.get_container_properties()] *)
Definition get_container_properties (c : ContainerClient) : Handler unit :=
  store_call GetContainerProperties.

(** ** Requests and responses *)

Record FileStorage := {
  filename : pystr;
  content_type : option (list N);
  stream : list Byte.byte
}.

(** An upload request: the length of its body and the part named 'file' of
    its multipart form, when there is one. *)
Record Request := {
  content_length : N;
  form_file : option FileStorage
}.

#[local] Unset Elimination Schemes.
Inductive Json :=
  | JBool (b : bool)
  | JStr (s : pystr)
  | JList (l : list Json)
  | JObj (fields : list (string * Json)).
#[local] Set Elimination Schemes.

(** [jsonify(k1=v1, ...)] *)
Definition jsonify (kwargs : list (string * Json)) : Json := JObj kwargs.

Definition Response : Type := Json * N.

Definition MAX_FILE_SIZE : N := 10 * 1024 * 1024.
Definition MAX_CONTENT_LENGTH : N := MAX_FILE_SIZE.

(** [request.files]: parsing the form raises werkzeug's
    RequestEntityTooLarge when the body is longer than MAX_CONTENT_LENGTH. *)
Definition RequestEntityTooLarge : Exn :=
  {| exn_str := s2p "413 Request Entity Too Large: The data value transmitted exceeds the capacity limit." |}.

Definition request_files (r : Request) : Handler (option FileStorage) :=
  if MAX_CONTENT_LENGTH <? content_length r then raise RequestEntityTooLarge
  else mret (form_file r).

(** [a >= b] on strings *)
Definition str_ge (a b : pystr) : Prop := Py.leb b a = true.

#[global] Instance str_ge_dec : RelDecision str_ge :=
  fun a b => decide (Py.leb b a = true).

(** [list.sort(reverse=True)] on strings *)
Definition sort_reverse (l : list (list N)) : list (list N) :=
  merge_sort str_ge l.

(** ** The module and its handlers *)

Section App.

Variable u : Ucd.
Variable p : Platform.
(** The module global [cc]. *)
Variable cc : option ContainerClient.

(** Attribute access on [cc]: raises when [cc] is [None]. *)
Definition cc_attr (attr : string) : Handler ContainerClient :=
  match cc with
  | Some c => mret c
  | None => raise {| exn_str := s2p "'NoneType' object has no attribute '"
                                 ++ s2p attr ++ s2p "'" |}
  end.

Definition generate_blob_name (original_filename : pystr) : Handler (list N) :=
  d ← utcnow;
  mret (blob_name_at u p d original_filename).

Definition bad_request (msg : string) : Response :=
  (jsonify [("ok", JBool false); ("error", JStr (s2p msg))]%string, 400).

Definition upload (request : Request) : Handler Response :=
  try_except
    (files ← request_files request;
     match files with
     | None => mret (bad_request "No file provided")
     | Some f =>
       if Py.eqb (filename f) [] then
         mret (bad_request "No file selected")
       else if negb (is_allowed_file u (filename f)) then
         mret (bad_request "Invalid file type. Only image files allowed.")
       else if match content_type f with
               | None => true
               | Some ct => negb (Py.nonempty ct)
                            || negb (Py.startswith ct (s2p "image/"))
               end then
         mret (bad_request "File must be an image")
       else
         blob_name ← generate_blob_name (filename f);
         c ← cc_attr "get_blob_client";
         let file_content := stream f in
         upload_blob blob_name file_content true
                     (default [] (content_type f));;
         let blob_url := url c ++ s2p "/" ++ blob_name in
         mret (jsonify [("ok", JBool true); ("url", JStr blob_url)]%string, 200)
     end)
    (fun e =>
       mret (jsonify [("ok", JBool false); ("error", JStr (exn_str e))]%string, 500)).

Definition gallery : Handler Response :=
  try_except
    (c ← cc_attr "list_blobs";
     blob_list ← list_blobs c;
     let gallery_urls := map (fun name => url c ++ s2p "/" ++ name) blob_list in
     let gallery_urls := sort_reverse gallery_urls in
     mret (jsonify [("ok", JBool true);
                    ("gallery", JList (map JStr gallery_urls))]%string, 200))
    (fun e =>
       mret (jsonify [("ok", JBool false); ("error", JStr (exn_str e))]%string, 500)).

Definition health : Handler Response :=
  match cc with
  | None =>
      mret (jsonify [("status", JStr (s2p "UNHEALTHY"));
                     ("message", JStr (s2p "Storage client failed to initialize"))]%string,
            503)
  | Some c =>
      try_except
        (get_container_properties c;;
         mret (jsonify [("status", JStr (s2p "OK"));
                        ("message", JStr (s2p "Azure Storage connection successful"))]%string,
               200))
        (fun e =>
           mret (jsonify [("status", JStr (s2p "DEGRADED"));
                          ("message", JStr (s2p "Storage connection failed: " ++ exn_str e))]%string,
                 503))
  end.

End App.

(** ** Module initialisation (lines 12-19 of app.py) *)

Record Environ := {
  AZURE_STORAGE_CONNECTION_STRING : option (list N);
  IMAGES_CONTAINER : option (list N)
}.

Section Startup.

(** The SDK's parser of connection strings: the URL of the account, or
    the exception raised for a string it cannot read. *)
Variable parse_connection_str : pystr -> Exn + list N.

(** [BlobServiceClient.from_connection_string(conn_str)].  There is no
    guard for [None]: the first thing done is [conn_str.rstrip(";")]. *)
Definition from_connection_string (conn_str : option (list N)) : Exn + list N :=
  match conn_str with
  | None => inl {| exn_str := s2p "'NoneType' object has no attribute 'rstrip'" |}
  | Some s => parse_connection_str s
  end.

Definition CONTAINER_NAME (env : Environ) : pystr :=
  default (s2p "lanternfly-images") (IMAGES_CONTAINER env).

(** [urllib.parse.quote], which the SDK applies to the name of the
    container when it builds [url]. *)
Variable quote : pystr -> list N.

(** [bsc.get_container_client(name)]: the constructor of the client
    refuses an empty name, and the URL carries the name quoted. *)
Definition get_container_client (account_url name : pystr)
    : Exn + ContainerClient :=
  if Py.nonempty name
  then inr {| url := account_url ++ s2p "/" ++ quote name |}
  else inl {| exn_str := s2p "Please specify a container name." |}.

(** Loading the module: either an exception leaves the import (there is
    no [try] around lines 18 and 19) and no application exists, or the
    global [cc] is bound to a client. *)
Definition load_module (env : Environ) : Exn + option ContainerClient :=
  match from_connection_string (AZURE_STORAGE_CONNECTION_STRING env) with
  | inl e => inl e
  | inr bsc =>
      match get_container_client bsc (CONTAINER_NAME env) with
      | inl e => inl e
      | inr c => inr (Some c)
      end
  end.

End Startup.

(** ** Definitions used in the statements

    Response bodies, the pattern of the keys, sample data for the
    examples, and the readings of the specification that the theorems
    compare the code with. *)

(** The body [{ok: false, error: msg}] of every error response of [upload]
    and [gallery]. *)
Definition error_body (msg : pystr) : Json :=
  JObj [("ok", JBool false); ("error", JStr msg)]%string.

(** The status of the answer of a handler. *)
Definition status_of (r : (Exn + Response) * World) : option N :=
  match fst r with
  | inr (_, st) => Some st
  | inl _ => None
  end.

(** Sample data for the examples below. *)
Definition sample_now : datetime :=
  {| year := 2025; month := 1; day := 2; hour := 3; minute := 4; second := 5;
     microsecond := 678 |}.
Definition sample_world : World :=
  {| container := ∅; now := sample_now; faults := []; calls := [] |}.
Definition sample_client : ContainerClient :=
  {| url := s2p "https://lanvyp.blob.core.windows.net/lanternfly-images" |}.
Definition sample_file : FileStorage :=
  {| filename := s2p "my photo.PNG"; content_type := Some (s2p "image/png");
     stream := [Byte.x89; Byte.x50; Byte.x4e; Byte.x47] |}.
Definition sample_request : Request :=
  {| content_length := 4096; form_file := Some sample_file |}.

Definition is_ascii_alpha (c : N) : bool :=
  Py.is_ascii_upper c || Py.is_ascii_lower c.

Definition ends_with (t s : list N) : Prop := exists z, s = z ++ t.

(** The extensions of the allowed set are made of lowercase ASCII letters
    other than "k". *)
Definition ext_letter (d : N) : bool := Py.is_ascii_lower d && negb (d =? 107).

(** The pattern [^\d{8}T\d{6}-.+$] of the specification, matched from the
    start of the string as [re.match] does.  [\d] is taken as an ASCII
    digit; [.] is any character but a newline; [$] is the end of the
    string or the place before a newline that ends it. *)
Fixpoint match_digits (n : nat) (s : pystr) : option (list N) :=
  match n with
  | O => Some s
  | S n' => match s with
            | c :: s' => if Py.is_ascii_digit c then match_digits n' s' else None
            | [] => None
            end
  end.

Fixpoint dot_plus_end (r : pystr) : bool :=
  match r with
  | [] => false
  | c :: r' => negb (c =? 10)
               && (Py.eqb r' [] || Py.eqb r' [10] || dot_plus_end r')
  end.

Definition key_regex_match (s : pystr) : bool :=
  match match_digits 8 s with
  | Some (c :: r) =>
      (c =? 84)
      && match match_digits 6 r with
         | Some (c' :: r') => (c' =? 45) && dot_plus_end r'
         | _ => false
         end
  | _ => false
  end.

(** The timestamp reads the clock down to the second. *)
Definition same_second (d1 d2 : datetime) : Prop :=
  year d1 = year d2 /\ month d1 = month d2 /\ day d1 = day d2 /\
  hour d1 = hour d2 /\ minute d1 = minute d2 /\ second d1 = second d2.

Definition ok_url_body (blob_url : pystr) : Json :=
  JObj [("ok", JBool true); ("url", JStr blob_url)]%string.



(** The world after one store call. *)
Definition after_call (c : StoreCall) (w : World) : World :=
  set_faults (tail (faults w)) (log_call c w).

(** The bodies [{ok: true, gallery: urls}] and [{status: s, message: m}]. *)
Definition gallery_body (urls : list (list N)) : Json :=
  JObj [("ok", JBool true); ("gallery", JList (map JStr urls))]%string.
Definition health_body (status message : pystr) : Json :=
  JObj [("status", JStr status); ("message", JStr message)]%string.

Definition failing_world (e : pystr) : World :=
  {| container := ∅; now := sample_now; faults := [Some e]; calls := [] |}.

(** The calls that only read. *)
Definition is_read_call (c : StoreCall) : bool :=
  match c with
  | ListBlobs | GetContainerProperties => true
  | UploadBlob _ _ _ | DeleteBlob _ => false
  end.

Definition text_file : FileStorage :=
  {| filename := s2p "notes.txt"; content_type := Some (s2p "image/png");
     stream := [] |}.
Definition text_request : Request :=
  {| content_length := 200; form_file := Some text_file |}.
Definition oversize_request : Request :=
  {| content_length := 10485761; form_file := Some sample_file |}.

(** The URL that [gallery] and [upload] give to a blob. *)
Definition blob_url (c : ContainerClient) (name : pystr) : pystr :=
  url c ++ s2p "/" ++ name.

(** The URLs listed by a successful [gallery]. *)
Definition listing (c : ContainerClient) (w : World) : list (list N) :=
  sort_reverse (map (blob_url c) (map fst (map_to_list (container w)))).

Definition sample_blob : Blob :=
  {| blob_bytes := [Byte.x00]; blob_content_type := s2p "image/png" |}.
Definition two_blob_world : World :=
  {| container := {[ s2p "20250101T000000-a.png" := sample_blob;
                     s2p "20250102T000000-b.png" := sample_blob ]};
     now := sample_now; faults := [None]; calls := [] |}.

(** How many times a string is in a list. *)
Definition occurrences (x : pystr) (l : list (list N)) : nat :=
  count_occ (List.list_eq_dec N.eq_dec) l x.

Definition later_now : datetime :=
  {| year := 2025; month := 1; day := 2; hour := 3; minute := 4; second := 5;
     microsecond := 999000 |}.
Definition second_file : FileStorage :=
  {| filename := s2p "my photo.PNG"; content_type := Some (s2p "image/png");
     stream := [Byte.xff; Byte.xd8] |}.
Definition second_request : Request :=
  {| content_length := 2048; form_file := Some second_file |}.

(** ** Definitions for the further properties *)

(** Chronological order of two clock readings, down to the second. *)
Definition chron_leb (d1 d2 : datetime) : bool :=
  (year d1 <? year d2)
  || ((year d1 =? year d2)
      && ((month d1 <? month d2)
          || ((month d1 =? month d2)
              && ((day d1 <? day d2)
                  || ((day d1 =? day d2)
                      && ((hour d1 <? hour d2)
                          || ((hour d1 =? hour d2)
                              && ((minute d1 <? minute d2)
                                  || ((minute d1 =? minute d2)
                                      && (second d1 <=? second d2)))))))))).

Definition jan_first : datetime :=
  {| year := 2025; month := 1; day := 1; hour := 0; minute := 0; second := 0;
     microsecond := 0 |}.
Definition jan_second : datetime :=
  {| year := 2025; month := 1; day := 2; hour := 0; minute := 0; second := 0;
     microsecond := 0 |}.

(** The value of [filename] in [secure_filename] before the test for
    device names, and that test. *)
Definition sanitized_core (u : Ucd) (p : Platform) (f : pystr) : pystr :=
  Py.strip (s2p "._")
    (filename_ascii_strip
       (Py.join (s2p "_")
          (Py.split_ws (replace_seps p (encode_ascii_ignore (nfkd u f)))))).

Definition is_device_name (s : pystr) : bool :=
  Py.mem (map Py.ascii_upper (hd [] (Py.split_on (N.eqb DOT) s)))
         windows_device_files.

Definition next_second : datetime :=
  {| year := 2025; month := 1; day := 2; hour := 3; minute := 4; second := 6;
     microsecond := 0 |}.



(** * Properties *)

(** ** Examples *)

Example secure_filename_plain :
  secure_filename sample_ucd posix (s2p "My cool movie.PNG") = s2p "My_cool_movie.PNG".
Proof. vm_compute. reflexivity. Qed.

Example secure_filename_traversal :
  secure_filename sample_ucd posix (s2p "../../../etc/passwd.png") = s2p "etc_passwd.png".
Proof. vm_compute. reflexivity. Qed.

Example secure_filename_accent :
  secure_filename sample_ucd posix [233; 46; 112; 110; 103] = s2p "e.png".
Proof. vm_compute. reflexivity. Qed.

Example secure_filename_device :
  secure_filename sample_ucd nt (s2p "con.png") = s2p "_con.png".
Proof. vm_compute. reflexivity. Qed.

Example is_allowed_file_upper :
  is_allowed_file sample_ucd (s2p "a.b.JpEg") = true.
Proof. vm_compute. reflexivity. Qed.

Example is_allowed_file_nodot :
  is_allowed_file sample_ucd (s2p "png") = false.
Proof. vm_compute. reflexivity. Qed.

(** ** Strings *)

Lemma eqb_eq (a b : list N) : Py.eqb a b = true <-> a = b.
Proof.
  revert b; induction a as [|x a IH]; intros [|y b]; simpl; try (split; congruence).
  rewrite andb_true_iff, N.eqb_eq, IH. split; [intros [-> ->]; reflexivity | intros [= -> ->]; auto].
Qed.

Lemma contains_char_false x (s : list N) :
  Py.contains_char x s = false <-> ~ In x s.
Proof.
  unfold Py.contains_char. split.
  - intros H Hin. assert (existsb (N.eqb x) s = true) as E; [|congruence].
    apply existsb_exists. exists x. split; [assumption | apply N.eqb_refl].
  - intros H. destruct (existsb (N.eqb x) s) eqn:E; [|reflexivity].
    apply existsb_exists in E as (y & Hy & Exy). apply N.eqb_eq in Exy. subst. contradiction.
Qed.

Lemma contains_char_split x (s : list N) :
  Py.contains_char x s = true ->
  exists pre ext, s = pre ++ x :: ext /\ Py.contains_char x ext = false.
Proof.
  unfold Py.contains_char.
  induction s as [|c s IH]; simpl; [congruence|].
  destruct (existsb (N.eqb x) s) eqn:E.
  - intros _. destruct (IH eq_refl) as (pre & ext & -> & Hext).
    exists (c :: pre), ext. split; [reflexivity | assumption].
  - rewrite orb_false_r. intros Hc.
    apply N.eqb_eq in Hc. subst c. exists [], s. split; [reflexivity | exact E].
Qed.

Lemma contains_char_app x (a b : list N) :
  Py.contains_char x (a ++ b) = Py.contains_char x a || Py.contains_char x b.
Proof. unfold Py.contains_char. apply existsb_app. Qed.

Lemma rsplit1_rev_cut sep (e acc r : list N) :
  Py.contains_char sep e = false ->
  Py.rsplit1_rev sep acc (e ++ sep :: r) = [rev r; rev e ++ acc].
Proof.
  revert acc; induction e as [|c e IH]; intros acc; simpl.
  - rewrite N.eqb_refl. reflexivity.
  - intros H. apply orb_false_iff in H as [Hc He].
    rewrite N.eqb_sym in Hc. rewrite Hc, (IH _ He), <- app_assoc. reflexivity.
Qed.

Lemma rsplit1_rev_whole sep (e acc : list N) :
  Py.contains_char sep e = false ->
  Py.rsplit1_rev sep acc e = [rev e ++ acc].
Proof.
  revert acc; induction e as [|c e IH]; intros acc; simpl; [reflexivity|].
  intros H. apply orb_false_iff in H as [Hc He].
  rewrite N.eqb_sym in Hc. rewrite Hc, (IH _ He), <- app_assoc. reflexivity.
Qed.

Lemma contains_char_rev x (s : list N) :
  Py.contains_char x (rev s) = Py.contains_char x s.
Proof.
  induction s as [|c s IH]; simpl; [reflexivity|].
  rewrite contains_char_app, IH. simpl. rewrite orb_false_r. apply orb_comm.
Qed.

(** [rsplit('.', 1)] cuts at the last separator. *)
Lemma rsplit1_cut sep (pre ext : list N) :
  Py.contains_char sep ext = false ->
  Py.rsplit1 sep (pre ++ sep :: ext) = [pre; ext].
Proof.
  intros H. unfold Py.rsplit1. rewrite rev_app_distr. simpl. rewrite <- app_assoc. simpl.
  rewrite rsplit1_rev_cut by (rewrite contains_char_rev; exact H).
  rewrite !rev_involutive, app_nil_r. reflexivity.
Qed.

Lemma rsplit1_whole sep (s : list N) :
  Py.contains_char sep s = false -> Py.rsplit1 sep s = [s].
Proof.
  intros H. unfold Py.rsplit1.
  rewrite rsplit1_rev_whole by (rewrite contains_char_rev; exact H).
  rewrite rev_involutive, app_nil_r. reflexivity.
Qed.

(** The index [[1]] of [is_allowed_file] is in range whenever it is
    evaluated. *)
Lemma rsplit1_length sep (s : list N) :
  Py.contains_char sep s = true -> length (Py.rsplit1 sep s) = 2%nat.
Proof.
  intros H. destruct (contains_char_split _ _ H) as (pre & ext & -> & Hext).
  rewrite rsplit1_cut by exact Hext. reflexivity.
Qed.

(** A file name is allowed exactly when the text after its last '.',
    lowercased, is one of the seven extensions. *)
Lemma is_allowed_file_iff u (f : list N) :
  is_allowed_file u f = true <->
  exists pre ext, f = pre ++ DOT :: ext /\ Py.contains_char DOT ext = false /\
                  Py.mem (py_lower u ext) ALLOWED_EXTENSIONS = true.
Proof.
  unfold is_allowed_file. split.
  - intros H. apply andb_true_iff in H as [Hdot Hext].
    destruct (contains_char_split _ _ Hdot) as (pre & ext & -> & Hno).
    rewrite rsplit1_cut in Hext by exact Hno. simpl in Hext.
    exists pre, ext. auto.
  - intros (pre & ext & -> & Hno & Hmem).
    rewrite contains_char_app.
    replace (Py.contains_char DOT (DOT :: ext)) with true by reflexivity.
    rewrite orb_true_r, rsplit1_cut by exact Hno. simpl. exact Hmem.
Qed.

(** ** Running handlers *)

Ltac run :=
  unfold try_except, generate_blob_name, upload_blob, list_blobs,
    get_container_properties, write_blob, blob_names, store_call, utcnow,
    cc_attr, raise, mbind, mret, Handler_bind, Handler_ret;
  cbn [container now faults calls set_faults log_call set_container set_now
       negb andb orb default from_option id fst snd].

Lemma request_files_within r w :
  content_length r <= MAX_CONTENT_LENGTH ->
  request_files r w = (inr (form_file r), w).
Proof.
  intros H. unfold request_files. apply N.ltb_ge in H. rewrite H. reflexivity.
Qed.

Lemma request_files_oversize r w :
  MAX_CONTENT_LENGTH < content_length r ->
  request_files r w = (inl RequestEntityTooLarge, w).
Proof.
  intros H. unfold request_files. apply N.ltb_lt in H. rewrite H. reflexivity.
Qed.

Lemma eqb_nil (s : list N) : Py.eqb s [] = true <-> s = [].
Proof. apply eqb_eq. Qed.

(** C1: within the size cap, [upload] checks in this order that the part
    'file' is there, that its name is not empty, that its extension is
    allowed and that its content type is an image type; the first check
    that fails answers 400 with its own message and leaves the world as it
    was, and a request that passes the four checks is not answered 400. *)
Theorem upload_validation_pipeline u p cc (request : Request) (w : World) :
  content_length request <= MAX_CONTENT_LENGTH ->
  (form_file request = None ->
   upload u p cc request w
   = (inr (error_body (s2p "No file provided"), 400), w))
  /\ (forall f, form_file request = Some f -> filename f = [] ->
      upload u p cc request w
      = (inr (error_body (s2p "No file selected"), 400), w))
  /\ (forall f, form_file request = Some f -> filename f <> [] ->
      (forall pre ext, filename f = pre ++ DOT :: ext ->
                       Py.contains_char DOT ext = false ->
                       Py.mem (py_lower u ext) ALLOWED_EXTENSIONS = false) ->
      upload u p cc request w
      = (inr (error_body (s2p "Invalid file type. Only image files allowed."), 400), w))
  /\ (forall f pre ext, form_file request = Some f ->
      filename f = pre ++ DOT :: ext -> Py.contains_char DOT ext = false ->
      Py.mem (py_lower u ext) ALLOWED_EXTENSIONS = true ->
      (content_type f = None
       \/ exists ct, content_type f = Some ct
                     /\ Py.startswith ct (s2p "image/") = false) ->
      upload u p cc request w
      = (inr (error_body (s2p "File must be an image"), 400), w))
  /\ (forall f pre ext ct, form_file request = Some f ->
      filename f = pre ++ DOT :: ext -> Py.contains_char DOT ext = false ->
      Py.mem (py_lower u ext) ALLOWED_EXTENSIONS = true ->
      content_type f = Some ct -> Py.startswith ct (s2p "image/") = true ->
      status_of (upload u p cc request w) <> Some 400).
Proof.
  intros Hcap.
  assert (Hrun : forall (k : option FileStorage -> Handler Response) h,
    try_except (request_files request ≫= k) h w
    = try_except (k (form_file request)) h w).
  { intros k h. unfold try_except, mbind, Handler_bind.
    rewrite (request_files_within _ _ Hcap). reflexivity. }
  unfold upload. rewrite Hrun. clear Hrun.
  split; [|split; [|split; [|split]]].
  - intros ->. reflexivity.
  - intros f -> Hname. rewrite Hname. reflexivity.
  - intros f -> Hname Hext.
    destruct (Py.eqb (filename f) []) eqn:E; [apply eqb_nil in E; contradiction|].
    destruct (is_allowed_file u (filename f)) eqn:A; [|reflexivity].
    apply is_allowed_file_iff in A as (pre & ext & Hf & Hno & Hmem).
    rewrite (Hext _ _ Hf Hno) in Hmem. discriminate.
  - intros f pre ext -> Hf Hno Hmem Hct.
    assert (A : is_allowed_file u (filename f) = true)
      by (apply is_allowed_file_iff; eauto).
    destruct (Py.eqb (filename f) []) eqn:E;
      [apply eqb_nil in E; rewrite E in Hf; destruct pre; discriminate|].
    rewrite A. cbn [negb].
    destruct Hct as [-> | (ct & -> & Hct)]; [reflexivity|].
    rewrite Hct, orb_true_r. reflexivity.
  - intros f pre ext ct -> Hf Hno Hmem Hct Himg.
    assert (A : is_allowed_file u (filename f) = true)
      by (apply is_allowed_file_iff; eauto).
    destruct (Py.eqb (filename f) []) eqn:E;
      [apply eqb_nil in E; rewrite E in Hf; destruct pre; discriminate|].
    rewrite A, Hct, Himg. cbn [negb].
    assert (Hne : Py.nonempty ct = true) by (destruct ct; [discriminate | reflexivity]).
    rewrite Hne. cbn [negb orb].
    destruct cc as [c|]; run; [|discriminate].
    destruct (next_fault w); cbn; [discriminate|].
    destruct (container w !! _); cbn; discriminate.
Qed.

Lemma sample_request_within : content_length sample_request <= MAX_CONTENT_LENGTH.
Proof. vm_compute. discriminate. Qed.

(** The pipeline on a request that passes the four checks. *)
Lemma upload_validation_pipeline_witness :
  content_length sample_request <= MAX_CONTENT_LENGTH
  /\ status_of (upload sample_ucd posix (Some sample_client) sample_request sample_world)
     <> Some 400.
Proof.
  split; [exact sample_request_within|].
  destruct (upload_validation_pipeline sample_ucd posix (Some sample_client)
              sample_request sample_world sample_request_within)
    as (_ & _ & _ & _ & H).
  apply (H sample_file (s2p "my photo") (s2p "PNG") (s2p "image/png")); reflexivity.
Defined.

(** ** What [secure_filename] returns *)

Lemma lstrip_suffix chars (s : list N) :
  exists a, s = a ++ Py.lstrip chars s.
Proof.
  induction s as [|c s [a IH]]; simpl; [exists []; reflexivity|].
  destruct (Py.contains_char c chars).
  - exists (c :: a). simpl. congruence.
  - exists []. reflexivity.
Qed.

Lemma rstrip_prefix chars (s : list N) :
  exists b, s = Py.rstrip chars s ++ b.
Proof.
  unfold Py.rstrip. destruct (lstrip_suffix chars (rev s)) as [a Ha].
  exists (rev a). rewrite <- rev_app_distr, <- Ha, rev_involutive. reflexivity.
Qed.

Lemma strip_infix chars (s : list N) :
  exists a b, s = a ++ Py.strip chars s ++ b.
Proof.
  unfold Py.strip. destruct (lstrip_suffix chars s) as [a Ha].
  destruct (rstrip_prefix chars (Py.lstrip chars s)) as [b Hb].
  exists a, b. rewrite <- Hb. exact Ha.
Qed.

Lemma filename_ascii_strip_chars (s : list N) :
  Forall (fun c => is_key_char c = true) (filename_ascii_strip s).
Proof.
  apply Forall_forall. intros c Hc. unfold filename_ascii_strip in Hc.
  apply list_elem_of_filter in Hc. tauto.
Qed.

(** Whatever the name uploaded, the sanitized name is made of ASCII
    letters, digits, '_', '.' and '-' only. *)
Lemma secure_filename_chars u p (f : list N) :
  Forall (fun c => is_key_char c = true) (secure_filename u p f).
Proof.
  unfold secure_filename.
  set (s := filename_ascii_strip _).
  assert (Hs : Forall (fun c => is_key_char c = true) (Py.strip (s2p "._") s)).
  { destruct (strip_infix (s2p "._") s) as (a & b & Hab).
    pose proof (filename_ascii_strip_chars
                  (Py.join (s2p "_") (Py.split_ws (replace_seps p (encode_ascii_ignore (nfkd u f))))))
      as H.
    fold s in H. rewrite Hab in H.
    apply Forall_app in H as [_ H]. apply Forall_app in H as [H _]. exact H. }
  destruct (_ && _); [constructor; [reflexivity | exact Hs] | exact Hs].
Qed.

(** Stages of [secure_filename] on a name that ends in letters. *)

Lemma split_on_none q (t : list N) :
  Forall (fun c => q c = false) t -> Py.split_on q t = [t].
Proof.
  induction 1 as [|c t Hc _ IH]; simpl; [reflexivity|].
  rewrite Hc, IH. reflexivity.
Qed.

Lemma split_on_app_last q (b t : list N) :
  Forall (fun c => q c = false) t ->
  exists init w, Py.split_on q (b ++ t) = init ++ [w ++ t].
Proof.
  intros Ht. induction b as [|c b (init & w & IH)]; simpl.
  - exists [], []. apply split_on_none, Ht.
  - destruct (q c).
    + exists ([] :: init), w. rewrite IH. reflexivity.
    + rewrite IH. destruct init as [|i0 init]; simpl.
      * exists [], (c :: w). reflexivity.
      * exists ((c :: i0) :: init), w. reflexivity.
Qed.

Lemma join_app_last sep (init : list (list N)) (x : list N) :
  ends_with x (Py.join sep (init ++ [x])).
Proof.
  induction init as [|a init [z IH]]; simpl.
  - exists []. reflexivity.
  - destruct (init ++ [x]) as [|y l] eqn:E.
    + destruct init; discriminate.
    + exists (a ++ sep ++ z). rewrite IH, <- !app_assoc. reflexivity.
Qed.

Lemma split_ws_join_ends sep (b t : list N) :
  t <> [] -> Forall (fun c => Py.is_ascii_space c = false) t ->
  ends_with t (Py.join sep (Py.split_ws (b ++ t))).
Proof.
  intros Hne Ht. destruct (split_on_app_last _ b t Ht) as (init & w & E).
  unfold Py.split_ws. rewrite E, filter_app, filter_cons_True.
  2:{ destruct w; [destruct t; [contradiction | reflexivity] | reflexivity]. }
  rewrite filter_nil.
  destruct (join_app_last sep (filter (fun w => Py.nonempty w = true) init) (w ++ t))
    as [z Hz].
  exists (z ++ w). rewrite Hz, <- app_assoc. reflexivity.
Qed.

Lemma lstrip_head_kept chars c (s : list N) :
  Py.contains_char c chars = false -> Py.lstrip chars (c :: s) = c :: s.
Proof. intros H. simpl. rewrite H. reflexivity. Qed.

Lemma lstrip_ends chars (d t : list N) :
  t <> [] -> Forall (fun c => Py.contains_char c chars = false) t ->
  ends_with t (Py.lstrip chars (d ++ t)).
Proof.
  intros Hne Ht. induction d as [|c d IH]; simpl.
  - exists []. destruct Ht as [|c t Hc _]; [contradiction|].
    rewrite lstrip_head_kept by exact Hc. reflexivity.
  - destruct (Py.contains_char c chars); [exact IH|].
    exists (c :: d). reflexivity.
Qed.

Lemma rstrip_ends chars (d t : list N) :
  t <> [] -> Forall (fun c => Py.contains_char c chars = false) t ->
  Py.rstrip chars (d ++ t) = d ++ t.
Proof.
  intros Hne Ht. unfold Py.rstrip. rewrite rev_app_distr.
  destruct (rev t) as [|c r] eqn:E.
  - apply (f_equal (@rev N)) in E. rewrite rev_involutive in E. contradiction.
  - assert (Hc : Py.contains_char c chars = false).
    { rewrite Forall_forall in Ht. apply Ht. apply list_elem_of_In, in_rev.
      rewrite E. left. reflexivity. }
    simpl. rewrite Hc. change (c :: r ++ rev d) with ((c :: r) ++ rev d).
    rewrite <- E, <- rev_app_distr, rev_involutive. reflexivity.
Qed.

Lemma strip_ends chars (d t : list N) :
  t <> [] -> Forall (fun c => Py.contains_char c chars = false) t ->
  ends_with t (Py.strip chars (d ++ t)).
Proof.
  intros Hne Ht. unfold Py.strip.
  destruct (lstrip_ends chars d t Hne Ht) as [z Hz].
  rewrite Hz, rstrip_ends by assumption. exists z. reflexivity.
Qed.

(** Facts about single characters, by cases on the comparisons. *)
Ltac char_cases :=
  repeat match goal with
    | H : context [?a <=? ?b] |- _ => destruct (N.leb_spec a b); simpl in H
    | H : context [?a <? ?b] |- _ => destruct (N.ltb_spec a b); simpl in H
    | H : context [?a =? ?b] |- _ => destruct (N.eqb_spec a b); simpl in H
    | |- context [?a <=? ?b] => destruct (N.leb_spec a b); simpl
    | |- context [?a <? ?b] => destruct (N.ltb_spec a b); simpl
    | |- context [?a =? ?b] => destruct (N.eqb_spec a b); simpl
    end;
  try reflexivity; try discriminate; try lia.

Lemma key_char_ascii c : is_key_char c = true -> Py.is_ascii c = true.
Proof.
  unfold is_key_char, Py.is_ascii, Py.is_ascii_upper, Py.is_ascii_lower,
    Py.is_ascii_digit. intros H. char_cases.
Qed.

Lemma key_char_not_space c : is_key_char c = true -> Py.is_ascii_space c = false.
Proof.
  unfold is_key_char, Py.is_ascii_space, Py.is_ascii_upper, Py.is_ascii_lower,
    Py.is_ascii_digit. intros H. char_cases.
Qed.

Lemma key_char_not_sep p c a :
  is_key_char c = true -> a = os_sep p \/ os_altsep p = Some a -> (c =? a) = false.
Proof.
  unfold is_key_char, Py.is_ascii_upper, Py.is_ascii_lower, Py.is_ascii_digit.
  intros H Ha. assert (a = 47 \/ a = 92) as [-> | ->]
    by (destruct p, Ha as [Ha|Ha]; simpl in Ha; try discriminate; try injection Ha; auto).
  all: char_cases.
Qed.

Lemma alpha_key_char c : is_ascii_alpha c = true -> is_key_char c = true.
Proof.
  unfold is_ascii_alpha, is_key_char. intros H.
  apply orb_true_iff in H as [-> | ->]; rewrite ?orb_true_r; reflexivity.
Qed.

Lemma alpha_not_stripped c :
  is_ascii_alpha c = true -> Py.contains_char c (s2p "._") = false.
Proof.
  unfold is_ascii_alpha, Py.is_ascii_upper, Py.is_ascii_lower. intros H.
  cbn. char_cases.
Qed.

Lemma flat_map_single {A} (g : A -> list A) (t : list A) :
  Forall (fun c => g c = [c]) t -> flat_map g t = t.
Proof. induction 1 as [|c t Hc _ IH]; simpl; [reflexivity|]. rewrite Hc, IH. reflexivity. Qed.

Lemma map_fixed {A} (g : A -> A) (t : list A) :
  Forall (fun c => g c = c) t -> map g t = t.
Proof. induction 1 as [|c t Hc _ IH]; simpl; [reflexivity|]. rewrite Hc, IH. reflexivity. Qed.

Lemma filter_all (q : N -> bool) (t : list N) :
  Forall (fun c => q c = true) t -> filter (fun c => q c = true) t = t.
Proof.
  induction 1 as [|c t Hc _ IH]; [reflexivity|].
  rewrite filter_cons_True by exact Hc. rewrite IH. reflexivity.
Qed.

Section KeyCharStrings.

Variable u : Ucd.
Variable p : Platform.
Variable t : list N.
Hypothesis Ht : Forall (fun c => is_key_char c = true) t.

Lemma nfkd_key : nfkd u t = t.
Proof.
  apply flat_map_single. eapply Forall_impl; [exact Ht|].
  intros c Hc. simpl. rewrite (key_char_ascii _ Hc). reflexivity.
Qed.

Lemma encode_key : encode_ascii_ignore t = t.
Proof.
  apply filter_all. eapply Forall_impl; [exact Ht|]. apply key_char_ascii.
Qed.

Lemma replace_seps_key : replace_seps p t = t.
Proof.
  unfold replace_seps.
  assert (E : Py.replace_char (os_sep p) 32 t = t).
  { apply map_fixed. eapply Forall_impl; [exact Ht|]. intros c Hc. simpl.
    rewrite (key_char_not_sep p c (os_sep p) Hc) by auto. reflexivity. }
  rewrite E. destruct (os_altsep p) as [a|] eqn:Ea; [|reflexivity].
  apply map_fixed. eapply Forall_impl; [exact Ht|]. intros c Hc. simpl.
  rewrite (key_char_not_sep p c a Hc) by auto. reflexivity.
Qed.

Lemma key_no_space : Forall (fun c => Py.is_ascii_space c = false) t.
Proof. eapply Forall_impl; [exact Ht|]. apply key_char_not_space. Qed.

Lemma filename_ascii_strip_key : filename_ascii_strip t = t.
Proof. apply filter_all, Ht. Qed.

End KeyCharStrings.

Lemma allowed_letters (s : list N) :
  Py.mem s ALLOWED_EXTENSIONS = true -> forallb ext_letter s = true /\ s <> [].
Proof.
  unfold Py.mem, ALLOWED_EXTENSIONS. cbn [existsb]. rewrite !orb_true_iff.
  intros H. repeat destruct H as [H | H]; try discriminate;
    apply eqb_eq in H; subst s; split; try reflexivity; discriminate.
Qed.

(** A name whose lowercased form is an allowed extension is made of ASCII
    letters: no code point outside ASCII lowers into the allowed set. *)
Lemma allowed_ext_alpha u (ext : list N) :
  lower_table_ok u ->
  Py.mem (py_lower u ext) ALLOWED_EXTENSIONS = true ->
  ext <> [] /\ Forall (fun c => is_ascii_alpha c = true) ext.
Proof.
  intros Hu Hmem. apply allowed_letters in Hmem as [Hall Hne]. split.
  - intros ->. apply Hne. reflexivity.
  - clear Hne. induction ext as [|c ext IH]; [constructor|].
    unfold py_lower in Hall. cbn [flat_map] in Hall.
    rewrite forallb_app in Hall. apply andb_true_iff in Hall as [Hc Hrest].
    constructor; [|apply IH, Hrest].
    destruct (Py.is_ascii c) eqn:Ea.
    + cbn in Hc. rewrite andb_true_r in Hc. clear -Hc.
      unfold ext_letter, Py.ascii_lower, is_ascii_alpha, Py.is_ascii_upper,
        Py.is_ascii_lower in *.
      destruct ((65 <=? c) && (c <=? 90)) eqn:Eu; [reflexivity|].
      apply andb_true_iff in Hc as [Hc _]. rewrite Hc. reflexivity.
    + exfalso. unfold Py.is_ascii in Ea. apply N.ltb_ge in Ea.
      specialize (Hu c Ea). apply existsb_exists in Hu as (d & Hd & Hbad).
      rewrite forallb_forall in Hc. specialize (Hc d Hd). clear -Hc Hbad.
      unfold ext_letter, Py.is_ascii_lower in Hc. char_cases.
Qed.

Lemma nfkd_app u (a b : list N) : nfkd u (a ++ b) = nfkd u a ++ nfkd u b.
Proof. apply flat_map_app. Qed.

Lemma encode_ascii_ignore_app (a b : list N) :
  encode_ascii_ignore (a ++ b) = encode_ascii_ignore a ++ encode_ascii_ignore b.
Proof. apply filter_app. Qed.

Lemma replace_seps_app p (a b : list N) :
  replace_seps p (a ++ b) = replace_seps p a ++ replace_seps p b.
Proof.
  unfold replace_seps, Py.replace_char. destruct (os_altsep p); rewrite !map_app; reflexivity.
Qed.

Lemma filename_ascii_strip_app (a b : list N) :
  filename_ascii_strip (a ++ b) = filename_ascii_strip a ++ filename_ascii_strip b.
Proof. apply filter_app. Qed.

(** A name accepted by [is_allowed_file] keeps the text of its extension
    at the end of the sanitized name. *)
Lemma secure_filename_keeps_extension u p (pre ext : list N) :
  lower_table_ok u ->
  Py.mem (py_lower u ext) ALLOWED_EXTENSIONS = true ->
  ext <> [] /\ ends_with ext (secure_filename u p (pre ++ DOT :: ext)).
Proof.
  intros Hu Hmem. destruct (allowed_ext_alpha u ext Hu Hmem) as [Hne Halpha].
  split; [exact Hne|].
  assert (Hkey : Forall (fun c => is_key_char c = true) ext)
    by (eapply Forall_impl; [exact Halpha | apply alpha_key_char]).
  assert (Hkeep : Forall (fun c => Py.contains_char c (s2p "._") = false) ext)
    by (eapply Forall_impl; [exact Halpha | apply alpha_not_stripped]).
  unfold secure_filename.
  replace (pre ++ DOT :: ext) with ((pre ++ [DOT]) ++ ext)
    by (rewrite <- app_assoc; reflexivity).
  rewrite nfkd_app, encode_ascii_ignore_app, replace_seps_app.
  rewrite (nfkd_key u ext Hkey), (encode_key ext Hkey), (replace_seps_key p ext Hkey).
  destruct (split_ws_join_ends (s2p "_")
              (replace_seps p (encode_ascii_ignore (nfkd u (pre ++ [DOT]))))
              ext Hne (key_no_space ext Hkey)) as [z Hz].
  rewrite Hz, filename_ascii_strip_app, (filename_ascii_strip_key ext Hkey).
  destruct (strip_ends (s2p "._") (filename_ascii_strip z) ext Hne Hkeep) as [y Hy].
  rewrite Hy. destruct (_ && _); [exists (95 :: y) | exists y]; reflexivity.
Qed.


(** ** Object keys *)

Example key_regex_match_ok :
  key_regex_match (s2p "20250101T000000-a.png") = true.
Proof. reflexivity. Qed.

Example key_regex_match_empty_name :
  key_regex_match (s2p "20250101T000000-") = false.
Proof. reflexivity. Qed.

Example key_regex_match_short_date :
  key_regex_match (s2p "2025011T000000-a.png") = false.
Proof. reflexivity. Qed.

Lemma digit_is_digit n : Py.is_ascii_digit (digit n) = true.
Proof.
  unfold Py.is_ascii_digit, digit.
  pose proof (N.mod_lt n 10 ltac:(discriminate)) as H.
  set (m := n mod 10) in *. clearbody m.
  apply andb_true_iff. split; apply N.leb_le; lia.
Qed.

Lemma dot_plus_end_key (s : list N) :
  s <> [] -> Forall (fun c => is_key_char c = true) s -> dot_plus_end s = true.
Proof.
  intros Hne Hs. induction Hs as [|c s Hc Hs IH]; [contradiction|].
  cbn [dot_plus_end]. apply andb_true_iff. split.
  - clear -Hc. unfold is_key_char, Py.is_ascii_upper, Py.is_ascii_lower,
      Py.is_ascii_digit in Hc. char_cases.
  - destruct s as [|c' s]; [reflexivity|].
    rewrite IH by discriminate. apply orb_true_r.
Qed.

(** A timestamp, a dash and a name match the pattern when the name does
    the [.+$] part. *)
Lemma key_regex_match_strftime d (s : list N) :
  key_regex_match (strftime d ++ s2p "-" ++ s) = dot_plus_end s.
Proof.
  unfold key_regex_match, strftime, pad4, pad2. cbn [app s2p match_digits].
  rewrite !digit_is_digit. reflexivity.
Qed.

Lemma strftime_same_second d1 d2 :
  same_second d1 d2 -> strftime d1 = strftime d2.
Proof.
  intros (Hy & Hm & Hd & Hh & Hmi & Hs). unfold strftime.
  rewrite Hy, Hm, Hd, Hh, Hmi, Hs. reflexivity.
Qed.

(** ** The store phase of [upload] *)

(** What [upload] does with a request that passed the four checks. *)
Lemma upload_accepted u p c request w f ct :
  content_length request <= MAX_CONTENT_LENGTH ->
  form_file request = Some f ->
  is_allowed_file u (filename f) = true ->
  content_type f = Some ct -> Py.startswith ct (s2p "image/") = true ->
  let name := blob_name_at u p (now w) (filename f) in
  let b := {| blob_bytes := stream f; blob_content_type := ct |} in
  let w1 := set_faults (tail (faults w)) (log_call (UploadBlob name b true) w) in
  upload u p (Some c) request w
  = match next_fault w with
    | Some e => (inr (error_body e, 500), w1)
    | None => (inr (ok_url_body (url c ++ s2p "/" ++ name), 200),
               set_container (<[name := b]> (container w)) w1)
    end.
Proof.
  intros Hcap Hfile Hallowed Hct Himg name b w1.
  unfold upload, try_except, mbind, Handler_bind at 1.
  rewrite (request_files_within _ _ Hcap), Hfile, Hallowed, Hct, Himg.
  assert (Hname : Py.eqb (filename f) [] = false).
  { destruct (Py.eqb (filename f) []) eqn:E; [|reflexivity].
    apply eqb_nil in E. rewrite E in Hallowed. discriminate. }
  assert (Hne : Py.nonempty ct = true) by (destruct ct; [discriminate | reflexivity]).
  rewrite Hname, Hne. run. fold name b.
  destruct (next_fault w); run; [reflexivity|].
  destruct (container w !! name); reflexivity.
Qed.

Lemma sample_ucd_ok : lower_table_ok sample_ucd.
Proof.
  intros c Hc. cbn. destruct (c =? 8490); cbn; [reflexivity|].
  apply N.leb_le in Hc. rewrite Hc. reflexivity.
Qed.

Lemma sample_now_ok : datetime_ok sample_now.
Proof. unfold datetime_ok, sample_now. cbn. lia. Qed.

(** C2: a request within the size cap whose file name ends in an allowed
    extension (in any letter case) and whose content type starts with
    "image/" is answered 200 with [{ok: true, url: U}] when the store call
    does not raise; U is the URL of the container, a '/' and the key; the
    key is the timestamp of the clock, a dash and the sanitized file name,
    it matches [^\d{8}T\d{6}-.+$], and the store holds the payload under
    it. *)
Theorem upload_success u p c request w f pre ext ct :
  lower_table_ok u ->
  datetime_ok (now w) ->
  content_length request <= MAX_CONTENT_LENGTH ->
  form_file request = Some f ->
  filename f = pre ++ DOT :: ext ->
  Py.contains_char DOT ext = false ->
  Py.mem (py_lower u ext) ALLOWED_EXTENSIONS = true ->
  content_type f = Some ct ->
  Py.startswith ct (s2p "image/") = true ->
  next_fault w = None ->
  exists key w',
    upload u p (Some c) request w
    = (inr (ok_url_body (url c ++ s2p "/" ++ key), 200), w')
    /\ key = strftime (now w) ++ s2p "-" ++ secure_filename u p (filename f)
    /\ key_regex_match key = true
    /\ container w' !! key
       = Some {| blob_bytes := stream f; blob_content_type := ct |}.
Proof.
  intros Hu _ Hcap Hfile Hname Hno Hmem Hct Himg Hfault.
  assert (Hallowed : is_allowed_file u (filename f) = true)
    by (apply is_allowed_file_iff; eauto).
  pose proof (upload_accepted u p c request w f ct Hcap Hfile Hallowed Hct Himg) as Hrun.
  cbv zeta in Hrun. rewrite Hfault in Hrun.
  eexists. eexists. split; [exact Hrun|].
  split; [reflexivity|]. split.
  - unfold blob_name_at. rewrite key_regex_match_strftime.
    apply dot_plus_end_key; [|apply secure_filename_chars].
    rewrite Hname.
    destruct (secure_filename_keeps_extension u p pre ext Hu Hmem) as [Hne [z Hz]].
    rewrite Hz. destruct z; [exact Hne | discriminate].
  - cbn [container set_container]. apply lookup_insert_eq.
Qed.

(** A successful upload of "my photo.PNG" at 2025-01-02 03:04:05 UTC. *)
Lemma upload_success_witness :
  exists key w',
    upload sample_ucd posix (Some sample_client) sample_request sample_world
    = (inr (ok_url_body (url sample_client ++ s2p "/" ++ key), 200), w')
    /\ key = s2p "20250102T030405-my_photo.PNG"
    /\ key_regex_match key = true.
Proof.
  destruct (upload_success sample_ucd posix sample_client sample_request
              sample_world sample_file (s2p "my photo") (s2p "PNG")
              (s2p "image/png") sample_ucd_ok sample_now_ok
              sample_request_within eq_refl eq_refl eq_refl eq_refl eq_refl
              eq_refl eq_refl)
    as (key & w' & Hrun & Hkey & Hre & _).
  exists key, w'. split; [exact Hrun|]. split; [|exact Hre].
  rewrite Hkey. vm_compute. reflexivity.
Defined.

(** ** Sanitized names *)


(** ** Store failures *)

Lemma gallery_run c w :
  gallery (Some c) w
  = match next_fault w with
    | Some e => (inr (error_body e, 500), after_call ListBlobs w)
    | None =>
        (inr (gallery_body
                (sort_reverse
                   (map (fun name => url c ++ s2p "/" ++ name)
                        (map fst (map_to_list (container w))))),
              200),
         after_call ListBlobs w)
    end.
Proof.
  unfold gallery. run. destruct (next_fault w); reflexivity.
Qed.

Lemma gallery_uninitialized w :
  gallery None w
  = (inr (error_body (s2p "'NoneType' object has no attribute 'list_blobs'"), 500), w).
Proof. reflexivity. Qed.

Lemma health_run c w :
  health (Some c) w
  = (inr match next_fault w with
         | Some e =>
             (health_body (s2p "DEGRADED") (s2p "Storage connection failed: " ++ e),
              503)
         | None =>
             (health_body (s2p "OK") (s2p "Azure Storage connection successful"),
              200)
         end,
     after_call GetContainerProperties w).
Proof.
  unfold health. run. destruct (next_fault w); reflexivity.
Qed.

(** Every path of [upload] ends in a response: nothing escapes the
    handler. *)
Lemma upload_responds u p cc request w :
  exists resp, fst (upload u p cc request w) = inr resp.
Proof.
  unfold upload, try_except.
  match goal with
  | |- context [let (_, _) := ?m in _] => destruct m as [[e|resp] w']
  end; eexists; reflexivity.
Qed.

Lemma gallery_responds cc w : exists resp, fst (gallery cc w) = inr resp.
Proof.
  unfold gallery, try_except.
  match goal with
  | |- context [let (_, _) := ?m in _] => destruct m as [[e|resp] w']
  end; eexists; reflexivity.
Qed.

(** C4: [upload] and [gallery] let no exception out; when the store call
    of either raises, the answer is 500 with [{ok: false, error: M}] where
    M is the [str] of the exception as it came, and the handler has made
    that one store call and no other. *)
Theorem store_errors_become_500 u p c request w f pre ext ct e :
  content_length request <= MAX_CONTENT_LENGTH ->
  form_file request = Some f ->
  filename f = pre ++ DOT :: ext ->
  Py.contains_char DOT ext = false ->
  Py.mem (py_lower u ext) ALLOWED_EXTENSIONS = true ->
  content_type f = Some ct ->
  Py.startswith ct (s2p "image/") = true ->
  next_fault w = Some e ->
  (exists w' name b,
     upload u p (Some c) request w = (inr (error_body e, 500), w')
     /\ calls w' = calls w ++ [UploadBlob name b true]
     /\ container w' = container w)
  /\ (exists w',
        gallery (Some c) w = (inr (error_body e, 500), w')
        /\ calls w' = calls w ++ [ListBlobs]
        /\ container w' = container w)
  /\ (forall cc' request' w0, exists resp, fst (upload u p cc' request' w0) = inr resp)
  /\ (forall cc' w0, exists resp, fst (gallery cc' w0) = inr resp).
Proof.
  intros Hcap Hfile Hname Hno Hmem Hct Himg Hfault.
  assert (Hallowed : is_allowed_file u (filename f) = true)
    by (apply is_allowed_file_iff; eauto).
  split; [|split; [|split]].
  - pose proof (upload_accepted u p c request w f ct Hcap Hfile Hallowed Hct Himg) as Hrun.
    cbv zeta in Hrun. rewrite Hfault in Hrun.
    eexists. eexists. eexists. split; [exact Hrun|]. split; reflexivity.
  - rewrite gallery_run, Hfault. eexists. split; [reflexivity|]. split; reflexivity.
  - intros. apply upload_responds.
  - intros. apply gallery_responds.
Qed.

(** Both handlers against a network whose next call times out. *)
Lemma store_errors_become_500_witness :
  fst (upload sample_ucd posix (Some sample_client) sample_request
         (failing_world (s2p "Connection timed out")))
  = inr (error_body (s2p "Connection timed out"), 500)
  /\ fst (gallery (Some sample_client) (failing_world (s2p "Connection timed out")))
     = inr (error_body (s2p "Connection timed out"), 500).
Proof.
  destruct (store_errors_become_500 sample_ucd posix sample_client sample_request
              (failing_world (s2p "Connection timed out")) sample_file
              (s2p "my photo") (s2p "PNG") (s2p "image/png")
              (s2p "Connection timed out")
              sample_request_within eq_refl eq_refl eq_refl eq_refl eq_refl
              eq_refl eq_refl)
    as ((w1 & name & b & H1 & _) & (w2 & H2 & _) & _).
  rewrite H1, H2. split; reflexivity.
Defined.

(** ** Health *)

(** C6: with the client initialized, [health] asks for the properties of
    the container once; it answers 200 with status "OK" when the call does
    not raise, and otherwise 503 with status "DEGRADED" and a message that
    ends with the [str] of the exception; so the answer is 200 exactly when
    the probe does not raise, and "DEGRADED" is not "UNHEALTHY". *)
Theorem health_initialized c w :
  health (Some c) w
  = (inr match next_fault w with
         | Some e =>
             (health_body (s2p "DEGRADED") (s2p "Storage connection failed: " ++ e),
              503)
         | None =>
             (health_body (s2p "OK") (s2p "Azure Storage connection successful"),
              200)
         end,
     after_call GetContainerProperties w)
  /\ (status_of (health (Some c) w) = Some 200 <-> next_fault w = None)
  /\ (status_of (health (Some c) w) = Some 503 <-> next_fault w <> None)
  /\ s2p "DEGRADED" <> s2p "UNHEALTHY".
Proof.
  rewrite health_run. split; [reflexivity|].
  unfold status_of. cbn [fst].
  destruct (next_fault w); repeat split; try discriminate; try congruence.
Qed.

(** ** Start-up *)

(** The [None] branch of [health]: what the handler answers should [cc]
    ever be [None]. *)
Lemma health_uninitialized w :
  health None w
  = (inr (health_body (s2p "UNHEALTHY") (s2p "Storage client failed to initialize"),
          503), w).
Proof. reflexivity. Qed.

(** C5, on the code: without the connection string the import of the
    module ends at line 18 with the exception of
    [from_connection_string(None)], so no application serves the health
    endpoint; and a module that did load has bound [cc] to a client, so the
    "UNHEALTHY" branch of [health] is never taken. *)
Theorem missing_credential_aborts_import parse_connection_str quote container_name :
  load_module parse_connection_str quote
    {| AZURE_STORAGE_CONNECTION_STRING := None; IMAGES_CONTAINER := container_name |}
  = inl {| exn_str := s2p "'NoneType' object has no attribute 'rstrip'" |}
  /\ forall env, load_module parse_connection_str quote env <> inr None.
Proof.
  split; [reflexivity|].
  intros env. unfold load_module.
  destruct (from_connection_string _ _); [discriminate|].
  destruct (get_container_client _ _ _); discriminate.
Qed.

(** ** What the handlers do to the store *)

(** C10: whatever the state of the client and of the network, and whether
    they answer with success or with an error, [gallery] and [health] leave
    the blobs as they were, and the store calls they make are reads:
    [gallery] lists the blobs at most once and [health] asks for the
    properties of the container at most once. *)
Theorem gallery_health_read_only cc w :
  container (snd (gallery cc w)) = container w
  /\ container (snd (health cc w)) = container w
  /\ (calls (snd (gallery cc w)) = calls w
      \/ calls (snd (gallery cc w)) = calls w ++ [ListBlobs])
  /\ (calls (snd (health cc w)) = calls w
      \/ calls (snd (health cc w)) = calls w ++ [GetContainerProperties])
  /\ (exists new, calls (snd (gallery cc w)) = calls w ++ new
                  /\ forallb is_read_call new = true)
  /\ (exists new, calls (snd (health cc w)) = calls w ++ new
                  /\ forallb is_read_call new = true).
Proof.
  destruct cc as [c|].
  - rewrite gallery_run, health_run.
    assert (Hg : snd (match next_fault w with
                      | Some e => (inr (error_body e, 500), after_call ListBlobs w)
                      | None =>
                          (inr (gallery_body
                                  (sort_reverse
                                     (map (fun name => url c ++ s2p "/" ++ name)
                                        (map fst (map_to_list (container w))))), 200),
                           after_call ListBlobs w)
                      end : (Exn + Response) * World) = after_call ListBlobs w)
      by (destruct (next_fault w); reflexivity).
    rewrite Hg. cbn [snd after_call container calls set_faults log_call].
    repeat split; auto.
    + exists [ListBlobs]. split; reflexivity.
    + exists [GetContainerProperties]. split; reflexivity.
  - rewrite gallery_uninitialized, health_uninitialized. cbn [snd].
    repeat split; auto; exists []; rewrite app_nil_r; split; reflexivity.
Qed.

(** The two ways [upload] can end: nothing was asked of the store and the
    world is as it was, or the request passed the four checks and the
    handler made its one store call. *)
Lemma upload_outcomes u p cc request w :
  (upload u p cc request w
   = (fst (upload u p cc request w), w))
  \/ (exists c f ct,
        cc = Some c
        /\ content_length request <= MAX_CONTENT_LENGTH
        /\ form_file request = Some f
        /\ is_allowed_file u (filename f) = true
        /\ content_type f = Some ct
        /\ Py.startswith ct (s2p "image/") = true).
Proof.
  destruct (N.ltb_spec MAX_CONTENT_LENGTH (content_length request)) as [Hbig|Hcap].
  { left. unfold upload, try_except, mbind, Handler_bind.
    rewrite (request_files_oversize _ _ Hbig). reflexivity. }
  assert (Hrun : forall (k : option FileStorage -> Handler Response) h,
    try_except (request_files request ≫= k) h w
    = try_except (k (form_file request)) h w).
  { intros k h. unfold try_except, mbind, Handler_bind.
    rewrite (request_files_within _ _ Hcap). reflexivity. }
  unfold upload. rewrite Hrun. clear Hrun.
  destruct (form_file request) as [f|] eqn:Hfile; [|left; reflexivity].
  destruct (Py.eqb (filename f) []); [left; reflexivity|].
  destruct (is_allowed_file u (filename f)) eqn:Hallowed; [|left; reflexivity].
  cbn [negb].
  destruct (content_type f) as [ct|] eqn:Hct; [|left; reflexivity].
  destruct (Py.nonempty ct); [|left; reflexivity].
  destruct (Py.startswith ct (s2p "image/")) eqn:Himg; [|left; reflexivity].
  cbn [negb orb].
  destruct cc as [c|]; [|left; reflexivity].
  right. exists c, f, ct. auto 10.
Qed.

(** C8: when [upload] answers 400, or when the body of the request is
    longer than the 10 MiB of MAX_CONTENT_LENGTH, the handler has made no
    store call and the blobs are as they were. *)
Theorem rejected_upload_leaves_store u p cc request w :
  status_of (upload u p cc request w) = Some 400
  \/ MAX_CONTENT_LENGTH < content_length request ->
  calls (snd (upload u p cc request w)) = calls w
  /\ container (snd (upload u p cc request w)) = container w.
Proof.
  intros Hrej.
  destruct (upload_outcomes u p cc request w)
    as [Hsame | (c & f & ct & -> & Hcap & Hfile & Hallowed & Hct & Himg)].
  - rewrite Hsame. split; reflexivity.
  - exfalso. destruct Hrej as [H400 | Hbig]; [|lia].
    pose proof (upload_accepted u p c request w f ct Hcap Hfile Hallowed Hct Himg) as Hrun.
    cbv zeta in Hrun. rewrite Hrun in H400.
    destruct (next_fault w); discriminate.
Qed.

(** Each request is one store call at most: [upload] either leaves the
    log and the blobs as they were, or adds a single write to the log. *)
Lemma upload_single_store_call u p cc request w :
  (calls (snd (upload u p cc request w)) = calls w
   /\ container (snd (upload u p cc request w)) = container w)
  \/ exists name b,
       calls (snd (upload u p cc request w)) = calls w ++ [UploadBlob name b true].
Proof.
  destruct (upload_outcomes u p cc request w)
    as [Hsame | (c & f & ct & -> & Hcap & Hfile & Hallowed & Hct & Himg)].
  - left. rewrite Hsame. split; reflexivity.
  - right.
    pose proof (upload_accepted u p c request w f ct Hcap Hfile Hallowed Hct Himg) as Hrun.
    cbv zeta in Hrun. rewrite Hrun.
    destruct (next_fault w); eexists; eexists; reflexivity.
Qed.

(** A text file and a body one byte over the cap, on an empty container. *)
Lemma rejected_upload_leaves_store_witness :
  status_of (upload sample_ucd posix (Some sample_client) text_request sample_world)
  = Some 400
  /\ calls (snd (upload sample_ucd posix (Some sample_client) text_request sample_world))
     = []
  /\ MAX_CONTENT_LENGTH < content_length oversize_request
  /\ container (snd (upload sample_ucd posix (Some sample_client) oversize_request
                       sample_world)) = ∅.
Proof.
  split; [reflexivity|]. split.
  - apply (rejected_upload_leaves_store sample_ucd posix (Some sample_client)
             text_request sample_world). left. reflexivity.
  - split; [reflexivity|].
    apply (rejected_upload_leaves_store sample_ucd posix (Some sample_client)
             oversize_request sample_world). right. reflexivity.
Defined.

(** ** The order of the gallery *)

Lemma leb_total (a b : list N) : Py.leb a b = true \/ Py.leb b a = true.
Proof.
  revert b; induction a as [|x a IH]; intros [|y b]; simpl; auto.
  destruct (IH b) as [H | H]; rewrite H; char_cases; auto.
Qed.

Lemma leb_trans (a b c : list N) :
  Py.leb a b = true -> Py.leb b c = true -> Py.leb a c = true.
Proof.
  revert b c; induction a as [|x a IH]; intros [|y b] [|z c]; simpl; auto;
    try discriminate.
  intros H1 H2.
  apply orb_true_iff in H1 as [H1 | H1]; apply orb_true_iff in H2 as [H2 | H2];
    rewrite ?andb_true_iff in *; rewrite ?N.ltb_lt, ?N.eqb_eq in *.
  - apply orb_true_iff. left. apply N.ltb_lt. lia.
  - destruct H2 as [<- _]. apply orb_true_iff. left. apply N.ltb_lt. lia.
  - destruct H1 as [-> _]. apply orb_true_iff. left. apply N.ltb_lt. lia.
  - destruct H1 as [-> H1], H2 as [-> H2]. apply orb_true_iff. right.
    rewrite N.eqb_refl. apply (IH _ _ H1 H2).
Qed.

Lemma leb_antisym (a b : list N) :
  Py.leb a b = true -> Py.leb b a = true -> a = b.
Proof.
  revert b; induction a as [|x a IH]; intros [|y b]; simpl; auto;
    try discriminate.
  intros H1 H2.
  destruct (N.ltb_spec x y), (N.ltb_spec y x), (N.eqb_spec x y),
    (N.eqb_spec y x); simpl in *; try lia; try discriminate.
  subst. f_equal. apply IH; assumption.
Qed.

Lemma leb_app_prefix (a x y : list N) :
  Py.leb (a ++ x) (a ++ y) = Py.leb x y.
Proof.
  induction a as [|c a IH]; simpl; [reflexivity|].
  rewrite N.ltb_irrefl, N.eqb_refl, IH. reflexivity.
Qed.

#[global] Instance str_ge_total : Total str_ge.
Proof. intros a b. unfold str_ge. destruct (leb_total a b); auto. Qed.

#[global] Instance str_ge_trans : Transitive str_ge.
Proof. intros a b c H1 H2. unfold str_ge in *. eapply leb_trans; eassumption. Qed.

#[global] Instance str_ge_antisym : AntiSymm (=) str_ge.
Proof. intros a b H1 H2. unfold str_ge in *. apply leb_antisym; assumption. Qed.

Lemma sort_reverse_sorted (l : list (list N)) :
  StronglySorted str_ge (sort_reverse l).
Proof. apply StronglySorted_merge_sort; apply _. Qed.

Lemma sort_reverse_perm (l : list (list N)) : Permutation (sort_reverse l) l.
Proof. apply merge_sort_Permutation. Qed.

Lemma blob_url_inj c : Inj (=) (=) (blob_url c).
Proof.
  intros a b H. unfold blob_url in H.
  apply app_inv_head in H. apply app_inv_head in H. exact H.
Qed.

Lemma listing_elem c w (x : list N) :
  In x (listing c w)
  <-> exists name, is_Some (container w !! name) /\ x = blob_url c name.
Proof.
  unfold listing. rewrite <- list_elem_of_In, sort_reverse_perm, list_elem_of_In.
  rewrite in_map_iff. split.
  - intros (name & <- & Hin). exists name. split; [|reflexivity].
    apply in_map_iff in Hin as ([k b] & <- & Hin).
    apply list_elem_of_In, elem_of_map_to_list in Hin. exists b. exact Hin.
  - intros (name & [b Hb] & ->). exists name. split; [reflexivity|].
    apply in_map_iff. exists (name, b). split; [reflexivity|].
    apply list_elem_of_In, elem_of_map_to_list. exact Hb.
Qed.

Lemma listing_NoDup c w : NoDup (listing c w).
Proof.
  unfold listing. rewrite sort_reverse_perm.
  change (NoDup (blob_url c <$> (map_to_list (container w)).*1)).
  apply NoDup_fmap_2; [apply blob_url_inj | apply NoDup_fst_map_to_list].
Qed.

(** C3: when listing the blobs does not raise, [gallery] answers 200 with
    [{ok: true, gallery: L}]; L holds the URL (base URL, '/', key) of every
    stored key and nothing else, each once, and it is in descending
    code-point order of the URLs; for a container that holds the keys
    20250101T000000-a.png and 20250102T000000-b.png, the URL of the second
    comes first. *)
Theorem gallery_sorted_descending c w :
  next_fault w = None ->
  exists L,
    fst (gallery (Some c) w) = inr (gallery_body L, 200)
    /\ Permutation L (map (fun name => url c ++ s2p "/" ++ name)
                          (map fst (map_to_list (container w))))
    /\ (forall x, In x L
          <-> exists name, is_Some (container w !! name)
                           /\ x = url c ++ s2p "/" ++ name)
    /\ NoDup L
    /\ StronglySorted (fun a b => Py.leb b a = true) L
    /\ (forall b1 b2,
          container w = {[ s2p "20250101T000000-a.png" := b1;
                           s2p "20250102T000000-b.png" := b2 ]} ->
          L = [url c ++ s2p "/" ++ s2p "20250102T000000-b.png";
               url c ++ s2p "/" ++ s2p "20250101T000000-a.png"]).
Proof.
  intros Hfault. exists (listing c w).
  split; [rewrite gallery_run, Hfault; reflexivity|].
  split; [apply sort_reverse_perm|].
  split; [apply listing_elem|].
  split; [apply listing_NoDup|].
  split; [apply sort_reverse_sorted|].
  intros b1 b2 Hc.
  apply (Sorted_unique str_ge).
  - apply StronglySorted_Sorted, sort_reverse_sorted.
  - repeat constructor. unfold str_ge. fold (blob_url c (s2p "20250101T000000-a.png")).
    unfold blob_url. rewrite !leb_app_prefix. reflexivity.
  - unfold listing. rewrite sort_reverse_perm, Hc.
    change (blob_url c <$> (map_to_list
              (<[s2p "20250101T000000-a.png" := b1]>
                 {[s2p "20250102T000000-b.png" := b2]})).*1
            ≡ₚ [blob_url c (s2p "20250102T000000-b.png");
                blob_url c (s2p "20250101T000000-a.png")]).
    rewrite map_to_list_insert by (apply lookup_singleton_ne; discriminate).
    rewrite map_to_list_singleton. cbn. apply Permutation_swap.
Qed.

(** The listing of a container that holds the two keys of the example. *)
Lemma gallery_sorted_descending_witness :
  fst (gallery (Some sample_client) two_blob_world)
  = inr (gallery_body
           [url sample_client ++ s2p "/" ++ s2p "20250102T000000-b.png";
            url sample_client ++ s2p "/" ++ s2p "20250101T000000-a.png"], 200).
Proof.
  destruct (gallery_sorted_descending sample_client two_blob_world eq_refl)
    as (L & Hrun & _ & _ & _ & _ & Hex).
  rewrite Hrun, (Hex sample_blob sample_blob eq_refl). reflexivity.
Defined.

(** ** Keys that collide *)

Lemma next_fault_calm w :
  Forall (fun o => o = None) (faults w) -> next_fault w = None.
Proof.
  unfold next_fault. intros H. destruct H as [|o fs Ho _]; [reflexivity|].
  rewrite Ho. reflexivity.
Qed.

Lemma tail_calm (fs : list (option (list N))) :
  Forall (fun o => o = None) fs -> Forall (fun o => o = None) (tail fs).
Proof. intros H. destruct H; [constructor | assumption]. Qed.

(** C7: the key is a function of the clock read down to the second and of
    the sanitized file name.  Two uploads of one file name within a second,
    both stored without error, are answered with the same URL; the second
    write goes to the key of the first, so the container is the one before
    the two uploads with the second payload under that key, and a gallery
    listing that follows shows the URL of the key once. *)
Theorem same_second_uploads_overwrite u p c r1 r2 f1 f2 ct1 ct2 w d2 :
  content_length r1 <= MAX_CONTENT_LENGTH ->
  content_length r2 <= MAX_CONTENT_LENGTH ->
  form_file r1 = Some f1 ->
  form_file r2 = Some f2 ->
  filename f2 = filename f1 ->
  is_allowed_file u (filename f1) = true ->
  content_type f1 = Some ct1 -> Py.startswith ct1 (s2p "image/") = true ->
  content_type f2 = Some ct2 -> Py.startswith ct2 (s2p "image/") = true ->
  Forall (fun o => o = None) (faults w) ->
  same_second (now w) d2 ->
  let key := strftime (now w) ++ s2p "-" ++ secure_filename u p (filename f1) in
  let second_blob := {| blob_bytes := stream f2; blob_content_type := ct2 |} in
  let w1 := snd (upload u p (Some c) r1 w) in
  let w2 := snd (upload u p (Some c) r2 (set_now d2 w1)) in
  (forall d d' g g',
     same_second d d' -> secure_filename u p g = secure_filename u p g' ->
     blob_name_at u p d g = blob_name_at u p d' g')
  /\ fst (upload u p (Some c) r1 w)
     = inr (ok_url_body (url c ++ s2p "/" ++ key), 200)
  /\ fst (upload u p (Some c) r2 (set_now d2 w1))
     = inr (ok_url_body (url c ++ s2p "/" ++ key), 200)
  /\ container w2 = <[key := second_blob]> (container w)
  /\ container w2 !! key = Some second_blob
  /\ exists L,
       fst (gallery (Some c) w2) = inr (gallery_body L, 200)
       /\ occurrences (url c ++ s2p "/" ++ key) L = 1%nat.
Proof.
  intros Hcap1 Hcap2 Hfile1 Hfile2 Hsame Hallowed Hct1 Himg1 Hct2 Himg2 Hcalm Hsec
    key second_blob w1 w2.
  assert (Hallowed2 : is_allowed_file u (filename f2) = true)
    by (rewrite Hsame; exact Hallowed).
  pose proof (upload_accepted u p c r1 w f1 ct1 Hcap1 Hfile1 Hallowed Hct1 Himg1) as Hrun1.
  cbv zeta in Hrun1. rewrite (next_fault_calm w Hcalm) in Hrun1.
  fold (blob_name_at u p (now w) (filename f1)) in key.
  assert (Hw1 : w1 = set_container
                       (<[key := {| blob_bytes := stream f1; blob_content_type := ct1 |}]>
                          (container w))
                       (after_call (UploadBlob key
                          {| blob_bytes := stream f1; blob_content_type := ct1 |} true) w))
    by (unfold w1; rewrite Hrun1; reflexivity).
  assert (Hcalm1 : Forall (fun o => o = None) (faults (set_now d2 w1)))
    by (rewrite Hw1; cbn [faults set_now set_container after_call set_faults];
        apply tail_calm, Hcalm).
  pose proof (upload_accepted u p c r2 (set_now d2 w1) f2 ct2 Hcap2 Hfile2 Hallowed2
                Hct2 Himg2) as Hrun2.
  cbv zeta in Hrun2. rewrite (next_fault_calm _ Hcalm1) in Hrun2.
  assert (Hkey2 : blob_name_at u p (now (set_now d2 w1)) (filename f2) = key).
  { cbn [now set_now]. unfold key, blob_name_at.
    rewrite Hsame, (strftime_same_second _ _ Hsec). reflexivity. }
  rewrite Hkey2 in Hrun2.
  assert (Hc2 : container w2 = <[key := second_blob]> (container w)).
  { unfold w2. rewrite Hrun2. cbn [snd container set_container set_faults log_call set_now].
    rewrite Hw1. cbn [container set_container]. apply insert_insert_eq. }
  split; [|split; [|split; [|split; [|split]]]].
  - intros d d' g g' Hd Hg. unfold blob_name_at.
    rewrite Hg, (strftime_same_second _ _ Hd). reflexivity.
  - rewrite Hrun1. reflexivity.
  - rewrite Hrun2. reflexivity.
  - exact Hc2.
  - rewrite Hc2. apply lookup_insert_eq.
  - exists (listing c w2). split.
    + rewrite gallery_run, next_fault_calm; [reflexivity|].
      unfold w2. rewrite Hrun2.
      cbn [snd faults set_container set_faults log_call].
      apply tail_calm, Hcalm1.
    + unfold occurrences. apply NoDup_count_occ'; [apply NoDup_ListNoDup, listing_NoDup|].
      apply listing_elem. exists key. split; [|reflexivity].
      rewrite Hc2, lookup_insert_eq. eexists. reflexivity.
Qed.

Lemma second_request_within : content_length second_request <= MAX_CONTENT_LENGTH.
Proof. vm_compute. discriminate. Qed.

Lemma later_now_same_second : same_second (now sample_world) later_now.
Proof. repeat split. Qed.

(** Two uploads of "my photo.PNG" in one second: the second payload is
    what the container holds under the shared key. *)
Lemma same_second_uploads_overwrite_witness :
  container
    (snd (upload sample_ucd posix (Some sample_client) second_request
            (set_now later_now
               (snd (upload sample_ucd posix (Some sample_client) sample_request
                       sample_world)))))
  !! s2p "20250102T030405-my_photo.PNG"
  = Some {| blob_bytes := [Byte.xff; Byte.xd8]; blob_content_type := s2p "image/png" |}.
Proof.
  destruct (same_second_uploads_overwrite sample_ucd posix sample_client
              sample_request second_request sample_file second_file
              (s2p "image/png") (s2p "image/png") sample_world later_now
              sample_request_within second_request_within eq_refl eq_refl
              eq_refl eq_refl eq_refl eq_refl eq_refl eq_refl
              (List.Forall_nil _) later_now_same_second)
    as (_ & _ & _ & _ & H & _).
  exact H.
Defined.

(** In this embedding a body over the cap is refused inside the handler:
    reading [request.files] raises, and the [except] clause of [upload]
    answers 500 with the text of that exception. *)
Lemma upload_oversize u p cc request w :
  MAX_CONTENT_LENGTH < content_length request ->
  upload u p cc request w
  = (inr (error_body (exn_str RequestEntityTooLarge), 500), w).
Proof.
  intros Hbig. unfold upload, try_except, mbind, Handler_bind.
  rewrite (request_files_oversize _ _ Hbig). reflexivity.
Qed.

(** * Further properties of the code *)

(** ** Timestamps and the order of keys *)

Lemma digits2 n :
  n < 100 ->
  exists r1 r0, r1 < 10 /\ r0 < 10 /\ n = 10 * r1 + r0
                /\ pad2 n = [48 + r1; 48 + r0].
Proof.
  intros Hn. exists (n / 10), (n mod 10).
  pose proof (N.div_mod n 10 ltac:(discriminate)) as E.
  pose proof (N.mod_lt n 10 ltac:(discriminate)) as H0.
  assert (H1 : n / 10 < 10) by (apply N.Div0.div_lt_upper_bound; lia).
  repeat split; try assumption.
  unfold pad2, digit. rewrite (N.mod_small (n / 10) 10) by exact H1. reflexivity.
Qed.

Lemma digits4 n :
  n < 10000 ->
  exists r3 r2 r1 r0, r3 < 10 /\ r2 < 10 /\ r1 < 10 /\ r0 < 10
    /\ n = 1000 * r3 + 100 * r2 + 10 * r1 + r0
    /\ pad4 n = [48 + r3; 48 + r2; 48 + r1; 48 + r0].
Proof.
  intros Hn.
  exists (n / 1000), ((n / 100) mod 10), ((n / 10) mod 10), (n mod 10).
  pose proof (N.div_mod n 10 ltac:(discriminate)) as E0.
  pose proof (N.div_mod (n / 10) 10 ltac:(discriminate)) as E1.
  pose proof (N.div_mod (n / 10 / 10) 10 ltac:(discriminate)) as E2.
  rewrite !N.Div0.div_div in E1, E2.
  rewrite N.Div0.div_div in E2.
  change (10 * 10) with 100 in *. change (100 * 10) with 1000 in *.
  pose proof (N.mod_lt n 10 ltac:(discriminate)) as H0.
  pose proof (N.mod_lt (n / 10) 10 ltac:(discriminate)) as H1.
  pose proof (N.mod_lt (n / 100) 10 ltac:(discriminate)) as H2.
  assert (H3 : n / 1000 < 10) by (apply N.Div0.div_lt_upper_bound; lia).
  repeat split; try assumption.
  - set (a := n / 1000) in *. set (b := (n / 100) mod 10) in *.
    set (c := (n / 10) mod 10) in *. set (d := n mod 10) in *.
    set (q1 := n / 10) in *. set (q2 := n / 100) in *. lia.
  - unfold pad4, digit. rewrite (N.mod_small (n / 1000) 10) by exact H3. reflexivity.
Qed.

Lemma pad2_leb a b :
  a < 100 -> b < 100 -> Py.leb (pad2 a) (pad2 b) = (a <=? b).
Proof.
  intros Ha Hb.
  destruct (digits2 a Ha) as (a1 & a0 & ? & ? & -> & ->).
  destruct (digits2 b Hb) as (b1 & b0 & ? & ? & -> & ->).
  cbn [Py.leb]. char_cases.
Qed.

Lemma pad2_eqb a b :
  a < 100 -> b < 100 -> Py.eqb (pad2 a) (pad2 b) = (a =? b).
Proof.
  intros Ha Hb.
  destruct (digits2 a Ha) as (a1 & a0 & ? & ? & -> & ->).
  destruct (digits2 b Hb) as (b1 & b0 & ? & ? & -> & ->).
  cbn [Py.eqb]. char_cases.
Qed.

Lemma pad4_leb a b :
  a < 10000 -> b < 10000 -> Py.leb (pad4 a) (pad4 b) = (a <=? b).
Proof.
  intros Ha Hb.
  destruct (digits4 a Ha) as (a3 & a2 & a1 & a0 & ? & ? & ? & ? & -> & ->).
  destruct (digits4 b Hb) as (b3 & b2 & b1 & b0 & ? & ? & ? & ? & -> & ->).
  cbn [Py.leb]. char_cases.
Qed.

Lemma pad4_eqb a b :
  a < 10000 -> b < 10000 -> Py.eqb (pad4 a) (pad4 b) = (a =? b).
Proof.
  intros Ha Hb.
  destruct (digits4 a Ha) as (a3 & a2 & a1 & a0 & ? & ? & ? & ? & -> & ->).
  destruct (digits4 b Hb) as (b3 & b2 & b1 & b0 & ? & ? & ? & ? & -> & ->).
  cbn [Py.eqb]. char_cases.
Qed.

(** Comparing two strings block by block, for blocks of one length. *)
Lemma leb_app_blocks (a b x y : list N) :
  length a = length b ->
  Py.leb (a ++ x) (b ++ y) = if Py.eqb a b then Py.leb x y else Py.leb a b.
Proof.
  revert b; induction a as [|c a IH]; intros [|d b] Hlen; try discriminate.
  - reflexivity.
  - injection Hlen as Hlen. cbn [app Py.leb Py.eqb]. rewrite (IH b Hlen).
    destruct (N.ltb_spec c d), (N.eqb_spec c d); cbn; try lia; reflexivity.
Qed.

Lemma eqb_app_blocks (a b x y : list N) :
  length a = length b ->
  Py.eqb (a ++ x) (b ++ y) = Py.eqb a b && Py.eqb x y.
Proof.
  revert b; induction a as [|c a IH]; intros [|d b] Hlen; try discriminate.
  - reflexivity.
  - injection Hlen as Hlen. cbn [app Py.eqb]. rewrite (IH b Hlen).
    rewrite andb_assoc. reflexivity.
Qed.

Lemma strftime_length d : length (strftime d) = 15%nat.
Proof. reflexivity. Qed.

Lemma lex_step (a b : N) (r : bool) :
  (if a =? b then r else a <=? b) = (a <? b) || ((a =? b) && r).
Proof.
  destruct (N.eqb_spec a b), (N.ltb_spec a b), (N.leb_spec a b);
    cbn; try lia; reflexivity.
Qed.

Lemma datetime_ok_bounds d :
  datetime_ok d ->
  year d < 10000 /\ month d < 100 /\ day d < 100 /\ hour d < 100
  /\ minute d < 100 /\ second d < 100.
Proof. unfold datetime_ok. lia. Qed.

(** On clock readings in range, the code-point order of the timestamps is
    the chronological order. *)
Lemma strftime_leb d1 d2 :
  datetime_ok d1 -> datetime_ok d2 ->
  Py.leb (strftime d1) (strftime d2) = chron_leb d1 d2.
Proof.
  intros H1 H2.
  destruct (datetime_ok_bounds d1 H1) as (? & ? & ? & ? & ? & ?).
  destruct (datetime_ok_bounds d2 H2) as (? & ? & ? & ? & ? & ?).
  unfold strftime, chron_leb.
  rewrite leb_app_blocks, pad4_eqb, pad4_leb, lex_step by (reflexivity || assumption).
  rewrite leb_app_blocks, pad2_eqb, pad2_leb, lex_step by (reflexivity || assumption).
  rewrite leb_app_blocks, pad2_eqb, pad2_leb, lex_step by (reflexivity || assumption).
  rewrite leb_app_prefix.
  rewrite leb_app_blocks, pad2_eqb, pad2_leb, lex_step by (reflexivity || assumption).
  rewrite <- (app_nil_r (pad2 (second d1))), <- (app_nil_r (pad2 (second d2))).
  rewrite leb_app_blocks, pad2_eqb, pad2_leb, lex_step by (reflexivity || assumption).
  rewrite !app_nil_r, pad2_leb by assumption. reflexivity.
Qed.

Lemma strftime_inj d1 d2 :
  datetime_ok d1 -> datetime_ok d2 ->
  strftime d1 = strftime d2 -> same_second d1 d2.
Proof.
  intros H1 H2 E.
  pose proof (strftime_leb d1 d2 H1 H2) as L12.
  pose proof (strftime_leb d2 d1 H2 H1) as L21.
  rewrite E in L12. rewrite <- E in L21.
  assert (R : forall s, Py.leb s s = true)
    by (intros s; destruct (leb_total s s); assumption).
  rewrite R in L12, L21. clear -L12 L21. unfold chron_leb, same_second in *.
  symmetry in L12, L21.
  destruct (N.lt_trichotomy (year d1) (year d2)) as [Hy | [Hy | Hy]].
  1,3: exfalso; revert L12 L21; char_cases.
  rewrite <- Hy in *. rewrite N.ltb_irrefl, N.eqb_refl in *. cbn [orb andb] in *.
  destruct (N.lt_trichotomy (month d1) (month d2)) as [Hm | [Hm | Hm]].
  1,3: exfalso; revert L12 L21; char_cases.
  rewrite <- Hm in *. rewrite N.ltb_irrefl, N.eqb_refl in *. cbn [orb andb] in *.
  destruct (N.lt_trichotomy (day d1) (day d2)) as [Hd | [Hd | Hd]].
  1,3: exfalso; revert L12 L21; char_cases.
  rewrite <- Hd in *. rewrite N.ltb_irrefl, N.eqb_refl in *. cbn [orb andb] in *.
  destruct (N.lt_trichotomy (hour d1) (hour d2)) as [Hh | [Hh | Hh]].
  1,3: exfalso; revert L12 L21; char_cases.
  rewrite <- Hh in *. rewrite N.ltb_irrefl, N.eqb_refl in *. cbn [orb andb] in *.
  destruct (N.lt_trichotomy (minute d1) (minute d2)) as [Hmi | [Hmi | Hmi]].
  1,3: exfalso; revert L12 L21; char_cases.
  rewrite <- Hmi in *. rewrite N.ltb_irrefl, N.eqb_refl in *. cbn [orb andb] in *.
  apply N.leb_le in L12, L21. repeat split; lia.
Qed.

(** X1: two uploads get the same key only when the clock read the same
    second for both and their file names sanitize to the same name. *)
Theorem keys_collide_only_within_a_second u p d1 d2 (f1 f2 : list N) :
  datetime_ok d1 -> datetime_ok d2 ->
  blob_name_at u p d1 f1 = blob_name_at u p d2 f2 ->
  same_second d1 d2 /\ secure_filename u p f1 = secure_filename u p f2.
Proof.
  intros H1 H2 E. unfold blob_name_at in E.
  apply app_inj_1 in E as [Et Es]; [|reflexivity].
  split; [apply strftime_inj; assumption|].
  injection Es as Es. exact Es.
Qed.

(** Two names that sanitize alike, uploaded within one second. *)
Lemma keys_collide_only_within_a_second_witness :
  same_second sample_now later_now
  /\ secure_filename sample_ucd posix (s2p "a b.png")
     = secure_filename sample_ucd posix (s2p "a_b.png").
Proof.
  apply (keys_collide_only_within_a_second sample_ucd posix sample_now later_now
           (s2p "a b.png") (s2p "a_b.png")).
  - unfold datetime_ok, sample_now. cbn. lia.
  - unfold datetime_ok, later_now. cbn. lia.
  - vm_compute. reflexivity.
Defined.

Lemma sorted_before (L : list (list N)) (x y : list N) :
  StronglySorted str_ge L -> In x L -> In y L -> Py.leb x y = false ->
  exists l1 l2 l3, L = l1 ++ x :: l2 ++ y :: l3.
Proof.
  intros Hs Hx Hy Hlt.
  apply in_split in Hx as (l1 & r & ->).
  apply StronglySorted_app in Hs as (Hcross & _ & Hr).
  apply in_app_or in Hy as [Hy | [Hy | Hy]].
  - exfalso. assert (Hge : str_ge y x).
    { apply Hcross; [apply list_elem_of_In, Hy | left]. }
    unfold str_ge in Hge. congruence.
  - subst y. exfalso. destruct (leb_total x x); congruence.
  - apply in_split in Hy as (l2 & l3 & ->). exists l1, l2, l3. reflexivity.
Qed.

Lemma key_order u p d1 d2 (f1 f2 : list N) :
  datetime_ok d1 -> datetime_ok d2 -> chron_leb d2 d1 = false ->
  Py.leb (blob_name_at u p d2 f2) (blob_name_at u p d1 f1) = false.
Proof.
  intros H1 H2 Hlt. unfold blob_name_at.
  rewrite leb_app_blocks by reflexivity.
  rewrite (strftime_leb d2 d1 H2 H1), Hlt.
  destruct (Py.eqb (strftime d2) (strftime d1)) eqn:E; [|reflexivity].
  apply eqb_eq in E. pose proof (strftime_leb d2 d1 H2 H1) as L.
  rewrite E in L. destruct (leb_total (strftime d1) (strftime d1)); congruence.
Qed.

(** X2: in the listing of [gallery], of two keys made by
    [generate_blob_name] the one with the later timestamp comes first,
    whatever the file names: the listing is most recent first, down to the
    second. *)
Theorem gallery_most_recent_first u p c w d1 d2 (f1 f2 : list N) :
  next_fault w = None ->
  datetime_ok d1 -> datetime_ok d2 ->
  chron_leb d2 d1 = false ->
  is_Some (container w !! blob_name_at u p d1 f1) ->
  is_Some (container w !! blob_name_at u p d2 f2) ->
  exists l1 l2 l3,
    fst (gallery (Some c) w)
    = inr (gallery_body
             (l1 ++ (url c ++ s2p "/" ++ blob_name_at u p d2 f2)
                 :: l2 ++ (url c ++ s2p "/" ++ blob_name_at u p d1 f1) :: l3),
           200).
Proof.
  intros Hfault H1 H2 Hlt Hk1 Hk2.
  destruct (sorted_before (listing c w)
              (blob_url c (blob_name_at u p d2 f2))
              (blob_url c (blob_name_at u p d1 f1)))
    as (l1 & l2 & l3 & E).
  - apply sort_reverse_sorted.
  - apply listing_elem. eauto.
  - apply listing_elem. eauto.
  - unfold blob_url. rewrite !leb_app_prefix. apply key_order; assumption.
  - exists l1, l2, l3. rewrite gallery_run, Hfault.
    transitivity (inr (gallery_body (listing c w), 200) : Exn + Response);
      [reflexivity|].
    unfold blob_url in E. rewrite E. reflexivity.
Qed.

(** The two keys of [two_blob_world] are those of "a.png" on the first of
    January and of "b.png" on the second. *)
Lemma gallery_most_recent_first_witness :
  exists l1 l2 l3,
    fst (gallery (Some sample_client) two_blob_world)
    = inr (gallery_body
             (l1 ++ (url sample_client ++ s2p "/"
                       ++ blob_name_at sample_ucd posix jan_second (s2p "b.png"))
                 :: l2 ++ (url sample_client ++ s2p "/"
                             ++ blob_name_at sample_ucd posix jan_first (s2p "a.png"))
                 :: l3),
           200).
Proof.
  apply (gallery_most_recent_first sample_ucd posix sample_client two_blob_world
           jan_first jan_second (s2p "a.png") (s2p "b.png")).
  - reflexivity.
  - unfold datetime_ok, jan_first. cbn. lia.
  - unfold datetime_ok, jan_second. cbn. lia.
  - reflexivity.
  - exists sample_blob. vm_compute. reflexivity.
  - exists sample_blob. vm_compute. reflexivity.
Defined.

(** ** What the handlers answer and write *)

(** The ways [upload] can end: an error response with nothing asked of
    the store, or a request that passed the four checks with the client
    there. *)
Lemma upload_cases u p cc request w :
  (exists msg st,
     upload u p cc request w = (inr (error_body msg, st), w)
     /\ (st = 400 \/ st = 500))
  \/ (exists c f ct,
        cc = Some c
        /\ content_length request <= MAX_CONTENT_LENGTH
        /\ form_file request = Some f
        /\ is_allowed_file u (filename f) = true
        /\ content_type f = Some ct
        /\ Py.startswith ct (s2p "image/") = true).
Proof.
  destruct (N.ltb_spec MAX_CONTENT_LENGTH (content_length request)) as [Hbig|Hcap].
  { left. exists (exn_str RequestEntityTooLarge), 500.
    unfold upload, try_except, mbind, Handler_bind.
    rewrite (request_files_oversize _ _ Hbig). auto. }
  assert (Hrun : forall (k : option FileStorage -> Handler Response) h,
    try_except (request_files request ≫= k) h w
    = try_except (k (form_file request)) h w).
  { intros k h. unfold try_except, mbind, Handler_bind.
    rewrite (request_files_within _ _ Hcap). reflexivity. }
  unfold upload. rewrite Hrun. clear Hrun.
  destruct (form_file request) as [f|] eqn:Hfile;
    [|left; eexists; exists 400; split; [reflexivity | auto]].
  destruct (Py.eqb (filename f) []);
    [left; eexists; exists 400; split; [reflexivity | auto]|].
  destruct (is_allowed_file u (filename f)) eqn:Hallowed;
    [|left; eexists; exists 400; split; [reflexivity | auto]].
  cbn [negb].
  destruct (content_type f) as [ct|] eqn:Hct;
    [|left; eexists; exists 400; split; [reflexivity | auto]].
  destruct (Py.nonempty ct);
    [|left; eexists; exists 400; split; [reflexivity | auto]].
  destruct (Py.startswith ct (s2p "image/")) eqn:Himg;
    [|left; eexists; exists 400; split; [reflexivity | auto]].
  cbn [negb orb].
  destruct cc as [c|]; [|left; eexists; exists 500; split; [reflexivity | auto]].
  right. exists c, f, ct. auto 10.
Qed.

Lemma startswith_prefix (s pfx : list N) :
  Py.startswith s pfx = true <-> exists rest, s = pfx ++ rest.
Proof.
  revert s; induction pfx as [|b pfx IH]; intros [|a s]; cbn [Py.startswith].
  - split; [intros _; exists []; reflexivity | reflexivity].
  - split; [intros _; exists (a :: s); reflexivity | reflexivity].
  - split; [discriminate | intros [rest H]; discriminate].
  - rewrite andb_true_iff, N.eqb_eq, IH. split.
    + intros [-> [rest ->]]. exists rest. reflexivity.
    + intros [rest H]. injection H as -> ->. eauto.
Qed.

(** X3: [upload] answers 200 only for a request within the size cap whose
    file part has a name with an allowed extension and a content type that
    begins with "image/", with the client there and a store call that did
    not raise; it has then made exactly one store call, a write with
    overwrite of the payload and the declared content type under the
    generated key, and the URL in the body is that of the key. *)
Theorem upload_ok_only_if_valid u p cc request w :
  status_of (upload u p cc request w) = Some 200 ->
  exists c f pre ext rest,
    cc = Some c
    /\ content_length request <= MAX_CONTENT_LENGTH
    /\ form_file request = Some f
    /\ filename f = pre ++ DOT :: ext
    /\ Py.contains_char DOT ext = false
    /\ Py.mem (py_lower u ext) ALLOWED_EXTENSIONS = true
    /\ content_type f = Some (s2p "image/" ++ rest)
    /\ next_fault w = None
    /\ fst (upload u p cc request w)
       = inr (ok_url_body
                (url c ++ s2p "/" ++ blob_name_at u p (now w) (filename f)), 200)
    /\ calls (snd (upload u p cc request w))
       = calls w ++ [UploadBlob (blob_name_at u p (now w) (filename f))
                       {| blob_bytes := stream f;
                          blob_content_type := s2p "image/" ++ rest |} true].
Proof.
  intros H200.
  destruct (upload_cases u p cc request w)
    as [(msg & st & E & Hst)
       | (c & f & ct & -> & Hcap & Hfile & Hallowed & Hct & Himg)].
  { rewrite E in H200. cbn in H200. destruct Hst; subst; discriminate. }
  pose proof (upload_accepted u p c request w f ct Hcap Hfile Hallowed Hct Himg) as Hrun.
  cbv zeta in Hrun. rewrite Hrun in *.
  destruct (next_fault w) eqn:Hfault; [discriminate|].
  apply is_allowed_file_iff in Hallowed as (pre & ext & Hname & Hno & Hmem).
  apply startswith_prefix in Himg as [rest ->].
  exists c, f, pre, ext, rest. repeat split; auto.
Qed.

Lemma upload_ok_only_if_valid_witness :
  exists c f pre ext rest,
    Some sample_client = Some c
    /\ form_file sample_request = Some f
    /\ filename f = pre ++ DOT :: ext
    /\ content_type f = Some (s2p "image/" ++ rest).
Proof.
  destruct (upload_ok_only_if_valid sample_ucd posix (Some sample_client)
              sample_request sample_world eq_refl)
    as (c & f & pre & ext & rest & H1 & _ & H3 & H4 & _ & _ & H7 & _).
  exists c, f, pre, ext, rest. auto.
Defined.

(** X4: the three handlers answer with a fixed set of status codes:
    [upload] 200, 400 or 500, [gallery] 200 or 500, [health] 200 or 503;
    and none of them lets an exception out. *)
Theorem handler_status_codes u p cc request w :
  (status_of (upload u p cc request w) = Some 200
   \/ status_of (upload u p cc request w) = Some 400
   \/ status_of (upload u p cc request w) = Some 500)
  /\ (status_of (gallery cc w) = Some 200 \/ status_of (gallery cc w) = Some 500)
  /\ (status_of (health cc w) = Some 200 \/ status_of (health cc w) = Some 503).
Proof.
  split; [|split].
  - destruct (upload_cases u p cc request w)
      as [(msg & st & E & Hst)
         | (c & f & ct & -> & Hcap & Hfile & Hallowed & Hct & Himg)].
    + rewrite E. unfold status_of. cbn [fst]. destruct Hst; subst; auto.
    + pose proof (upload_accepted u p c request w f ct Hcap Hfile Hallowed Hct Himg)
        as Hrun.
      cbv zeta in Hrun. rewrite Hrun. destruct (next_fault w); auto.
  - destruct cc as [c|]; [|right; reflexivity].
    rewrite gallery_run. destruct (next_fault w); auto.
  - destruct cc as [c|]; [|right; reflexivity].
    rewrite health_run. unfold status_of. cbn [fst]. destruct (next_fault w); auto.
Qed.

Lemma digit_key_char n : is_key_char (digit n) = true.
Proof.
  pose proof (digit_is_digit n) as H. unfold is_key_char. rewrite H.
  rewrite !orb_true_r. reflexivity.
Qed.

Lemma blob_name_chars u p d (f : list N) :
  Forall (fun c => is_key_char c = true) (blob_name_at u p d f).
Proof.
  unfold blob_name_at, strftime, pad4, pad2. cbn [app s2p].
  repeat (constructor; [first [apply digit_key_char | reflexivity]|]).
  apply secure_filename_chars.
Qed.

(** X5: whatever the request, the only store call [upload] can make is
    one write with overwrite, and the name it writes to is made of ASCII
    letters, digits, '_', '.' and '-' only: no file name, however crafted,
    puts a path separator or a character outside ASCII into a blob
    name. *)
Theorem upload_writes_only_safe_names u p cc request w :
  calls (snd (upload u p cc request w)) = calls w
  \/ exists name b,
       calls (snd (upload u p cc request w)) = calls w ++ [UploadBlob name b true]
       /\ Forall (fun c => is_key_char c = true) name
       /\ Py.contains_char 47 name = false
       /\ Py.contains_char 92 name = false.
Proof.
  destruct (upload_cases u p cc request w)
    as [(msg & st & E & Hst)
       | (c & f & ct & -> & Hcap & Hfile & Hallowed & Hct & Himg)].
  - left. rewrite E. reflexivity.
  - right.
    pose proof (upload_accepted u p c request w f ct Hcap Hfile Hallowed Hct Himg) as Hrun.
    cbv zeta in Hrun. rewrite Hrun.
    pose proof (blob_name_chars u p (now w) (filename f)) as Hchars.
    exists (blob_name_at u p (now w) (filename f)),
      {| blob_bytes := stream f; blob_content_type := ct |}.
    split; [destruct (next_fault w); reflexivity|].
    split; [exact Hchars|].
    split; apply contains_char_false; intros Hin;
      rewrite Forall_forall in Hchars;
      apply list_elem_of_In, Hchars in Hin; discriminate.
Qed.

Lemma listing_length c w : length (listing c w) = size (container w).
Proof.
  unfold listing. rewrite (Permutation_length (sort_reverse_perm _)).
  rewrite !length_map. apply length_map_to_list.
Qed.



(** X7: the URL that [upload] returns with a 200 is in the listing of the
    next [gallery] that succeeds. *)
Theorem uploaded_url_is_listed u p c request w (U : list N) w' :
  upload u p (Some c) request w = (inr (ok_url_body U, 200), w') ->
  next_fault w' = None ->
  exists L, fst (gallery (Some c) w') = inr (gallery_body L, 200) /\ In U L.
Proof.
  intros Hup Hfault. exists (listing c w').
  split; [rewrite gallery_run, Hfault; reflexivity|].
  destruct (upload_cases u p (Some c) request w)
    as [(msg & st & E & Hst)
       | (c' & f & ct & Hc & Hcap & Hfile & Hallowed & Hct & Himg)].
  { exfalso. rewrite E in Hup. unfold error_body, ok_url_body in Hup.
    discriminate Hup. }
  injection Hc as <-.
  pose proof (upload_accepted u p c request w f ct Hcap Hfile Hallowed Hct Himg) as Hrun.
  cbv zeta in Hrun. rewrite Hrun in Hup.
  destruct (next_fault w);
    [exfalso; unfold error_body, ok_url_body in Hup; discriminate Hup|].
  injection Hup as HU Hw. subst U w'.
  apply listing_elem. exists (blob_name_at u p (now w) (filename f)).
  split; [|reflexivity].
  cbn [container set_container]. rewrite lookup_insert_eq. eexists. reflexivity.
Qed.

Lemma uploaded_url_is_listed_witness :
  exists L,
    fst (gallery (Some sample_client)
           (snd (upload sample_ucd posix (Some sample_client) sample_request
                   sample_world)))
    = inr (gallery_body L, 200)
    /\ In (url sample_client ++ s2p "/" ++ s2p "20250102T030405-my_photo.PNG") L.
Proof.
  apply (uploaded_url_is_listed sample_ucd posix sample_client sample_request
           sample_world).
  - vm_compute. reflexivity.
  - reflexivity.
Defined.

(** The container after [upload]: as it was, or with one blob put under
    the generated key. *)
Lemma upload_container u p cc request w :
  container (snd (upload u p cc request w)) = container w
  \/ exists f b,
       form_file request = Some f
       /\ container (snd (upload u p cc request w))
          = <[blob_name_at u p (now w) (filename f) := b]> (container w).
Proof.
  destruct (upload_cases u p cc request w)
    as [(msg & st & E & Hst)
       | (c & f & ct & -> & Hcap & Hfile & Hallowed & Hct & Himg)].
  - left. rewrite E. reflexivity.
  - pose proof (upload_accepted u p c request w f ct Hcap Hfile Hallowed Hct Himg) as Hrun.
    cbv zeta in Hrun. rewrite Hrun.
    destruct (next_fault w); [left; reflexivity|].
    right. eexists. eexists. split; [exact Hfile | reflexivity].
Qed.

(** X8: an upload takes nothing off the gallery: every URL listed before
    a call of [upload] is listed after it, whatever the call answered, and
    the listing has grown by one entry at most. *)
Theorem upload_keeps_gallery u p cc c request w :
  (forall x, In x (listing c w) ->
             In x (listing c (snd (upload u p cc request w))))
  /\ (length (listing c w)
      <= length (listing c (snd (upload u p cc request w)))
      <= S (length (listing c w)))%nat
  /\ (forall w0, next_fault w0 = None ->
        fst (gallery (Some c) w0) = inr (gallery_body (listing c w0), 200)).
Proof.
  split; [|split].
  - intros x Hx. apply listing_elem in Hx as (name & Hname & ->).
    apply listing_elem. exists name. split; [|reflexivity].
    destruct (upload_container u p cc request w) as [-> | (f & b & _ & ->)];
      [exact Hname|].
    rewrite lookup_insert. case_decide; [eexists; reflexivity | exact Hname].
  - rewrite !listing_length.
    destruct (upload_container u p cc request w) as [-> | (f & b & _ & ->)]; [lia|].
    rewrite map_size_insert. destruct (container w !! _); cbn; lia.
  - intros w0 Hfault. rewrite gallery_run, Hfault. reflexivity.
Qed.

(** X9: [upload] changes the container under one key at most, the key it
    generated for the file of the request: the blob found under any other
    name is the one that was there. *)
Theorem upload_touches_one_key u p cc request w (k : list N) :
  container (snd (upload u p cc request w)) !! k <> container w !! k ->
  exists f, form_file request = Some f
            /\ k = blob_name_at u p (now w) (filename f).
Proof.
  intros Hdiff.
  destruct (upload_container u p cc request w) as [E | (f & b & Hfile & E)];
    rewrite E in Hdiff; [contradiction|].
  exists f. split; [exact Hfile|].
  destruct (decide (blob_name_at u p (now w) (filename f) = k)) as [<- | Hne];
    [reflexivity|].
  rewrite lookup_insert_ne in Hdiff by exact Hne. contradiction.
Qed.

Lemma upload_touches_one_key_witness :
  exists f, form_file sample_request = Some f
            /\ s2p "20250102T030405-my_photo.PNG"
               = blob_name_at sample_ucd posix (now sample_world) (filename f).
Proof.
  apply (upload_touches_one_key sample_ucd posix (Some sample_client)
           sample_request sample_world).
  vm_compute. discriminate.
Defined.

(** ** More on sanitized names *)

Lemma secure_filename_core u p (f : list N) :
  secure_filename u p f
  = if os_name_nt p && Py.nonempty (sanitized_core u p f)
       && is_device_name (sanitized_core u p f)
    then 95 :: sanitized_core u p f
    else sanitized_core u p f.
Proof. reflexivity. Qed.

Lemma lstrip_head chars (s : list N) c :
  head (Py.lstrip chars s) = Some c -> Py.contains_char c chars = false.
Proof.
  induction s as [|a s IH]; cbn [Py.lstrip]; [discriminate|].
  destruct (Py.contains_char a chars) eqn:E; [exact IH|].
  intros [= <-]. exact E.
Qed.

Lemma last_rev_head (l : list N) : last (rev l) = head l.
Proof. destruct l as [|a l]; [reflexivity|]. cbn [rev]. apply last_snoc. Qed.

Lemma rstrip_last chars (s : list N) c :
  last (Py.rstrip chars s) = Some c -> Py.contains_char c chars = false.
Proof.
  unfold Py.rstrip. rewrite last_rev_head. apply lstrip_head.
Qed.

Lemma rstrip_head chars (s : list N) c :
  head (Py.rstrip chars s) = Some c -> head s = Some c.
Proof.
  destruct (rstrip_prefix chars s) as [b Hb].
  destruct (Py.rstrip chars s) as [|a r]; [discriminate|].
  intros [= <-]. rewrite Hb. reflexivity.
Qed.

(** What [strip] returns neither starts nor ends with a stripped
    character. *)
Lemma strip_edges chars (s : list N) c :
  head (Py.strip chars s) = Some c \/ last (Py.strip chars s) = Some c ->
  Py.contains_char c chars = false.
Proof.
  unfold Py.strip. intros [H | H].
  - apply rstrip_head in H. apply (lstrip_head _ _ _ H).
  - apply (rstrip_last _ _ _ H).
Qed.

Lemma strip_fixed chars (s : list N) :
  (forall c, head s = Some c \/ last s = Some c ->
             Py.contains_char c chars = false) ->
  Py.strip chars s = s.
Proof.
  intros Hedge. destruct s as [|c0 s]; [reflexivity|].
  unfold Py.strip. rewrite lstrip_head_kept by (apply Hedge; left; reflexivity).
  unfold Py.rstrip.
  destruct (rev (c0 :: s)) as [|cn r] eqn:E.
  - apply (f_equal (@rev N)) in E. rewrite rev_involutive in E. discriminate.
  - rewrite lstrip_head_kept.
    + rewrite <- E. apply rev_involutive.
    + apply Hedge. right. rewrite <- (rev_involutive (c0 :: s)), E.
      cbn [rev]. apply last_snoc.
Qed.

Lemma sanitized_core_chars u p (f : list N) :
  Forall (fun c => is_key_char c = true) (sanitized_core u p f).
Proof.
  unfold sanitized_core.
  destruct (strip_infix (s2p "._")
              (filename_ascii_strip
                 (Py.join (s2p "_")
                    (Py.split_ws (replace_seps p (encode_ascii_ignore (nfkd u f)))))))
    as (a & b & Hab).
  pose proof (filename_ascii_strip_chars
                (Py.join (s2p "_")
                   (Py.split_ws (replace_seps p (encode_ascii_ignore (nfkd u f))))))
    as H.
  rewrite Hab in H.
  apply Forall_app in H as [_ H]. apply Forall_app in H as [H _]. exact H.
Qed.

(** On a name made of key characters only the stripping of '.' and '_' is
    all that is left of the sanitization. *)
Lemma sanitized_core_key u p (s : list N) :
  Forall (fun c => is_key_char c = true) s ->
  sanitized_core u p s = Py.strip (s2p "._") s.
Proof.
  intros Hkey. unfold sanitized_core.
  rewrite (nfkd_key u s Hkey), (encode_key s Hkey), (replace_seps_key p s Hkey).
  destruct s as [|c0 s]; [reflexivity|].
  unfold Py.split_ws. rewrite (split_on_none _ _ (key_no_space _ Hkey)).
  rewrite filter_cons_True by reflexivity. rewrite filter_nil. cbn [Py.join].
  rewrite (filename_ascii_strip_key _ Hkey). reflexivity.
Qed.

(** X10: sanitizing a sanitized name changes nothing, on either platform:
    a key can be fed back as a file name and keeps its name part. *)
Theorem secure_filename_idempotent u p (f : list N) :
  secure_filename u p (secure_filename u p f) = secure_filename u p f.
Proof.
  rewrite (secure_filename_core u p f).
  set (o := sanitized_core u p f).
  assert (Hkey : Forall (fun c => is_key_char c = true) o)
    by apply sanitized_core_chars.
  assert (Hstrip : Py.strip (s2p "._") o = o).
  { apply strip_fixed. intros c Hc. apply (strip_edges (s2p "._") _ c Hc). }
  destruct (os_name_nt p && Py.nonempty o && is_device_name o) eqn:Hdev.
  - rewrite secure_filename_core.
    assert (Hcore : sanitized_core u p (95 :: o) = o).
    { rewrite sanitized_core_key by (constructor; [reflexivity | exact Hkey]).
      unfold Py.strip in *. cbn [Py.lstrip].
      replace (Py.contains_char 95 (s2p "._")) with true by reflexivity.
      exact Hstrip. }
    rewrite Hcore, Hdev. reflexivity.
  - rewrite secure_filename_core.
    rewrite (sanitized_core_key u p o Hkey), Hstrip, Hdev. reflexivity.
Qed.

(** X11: whatever the file name, the sanitized name neither starts nor
    ends with '.': it is never ".", ".." or a hidden file, and with X5 it
    holds no separator, so a key stays inside the container. *)
Theorem secure_filename_no_dot_edges u p (f : list N) :
  head (secure_filename u p f) <> Some DOT
  /\ last (secure_filename u p f) <> Some DOT.
Proof.
  rewrite secure_filename_core.
  assert (Hedge : forall c, head (sanitized_core u p f) = Some c
                            \/ last (sanitized_core u p f) = Some c ->
                            Py.contains_char c (s2p "._") = false)
    by (intros c Hc; apply (strip_edges (s2p "._") _ c Hc)).
  destruct (os_name_nt p && Py.nonempty (sanitized_core u p f)
            && is_device_name (sanitized_core u p f)) eqn:Hdev.
  - split; [discriminate|].
    destruct (sanitized_core u p f) as [|c0 o] eqn:E.
    + rewrite andb_false_r in Hdev. discriminate.
    + rewrite last_cons_cons. intros H.
      specialize (Hedge DOT (or_intror H)). discriminate.
  - split; intros H.
    + specialize (Hedge DOT (or_introl H)). discriminate.
    + specialize (Hedge DOT (or_intror H)). discriminate.
Qed.

(** ** More on allowed names *)

Lemma ascii_lower_dot c : (Py.ascii_lower c =? DOT) = (c =? DOT).
Proof.
  unfold Py.ascii_lower, Py.is_ascii_upper, DOT. char_cases.
Qed.

Lemma ascii_lower_idem c : Py.ascii_lower (Py.ascii_lower c) = Py.ascii_lower c.
Proof.
  unfold Py.ascii_lower, Py.is_ascii_upper.
  destruct ((65 <=? c) && (c <=? 90)) eqn:E; [|rewrite E; reflexivity].
  apply andb_true_iff in E as [E1 _]. apply N.leb_le in E1.
  replace (c + 32 <=? 90) with false by (symmetry; apply N.leb_gt; lia).
  rewrite andb_false_r. reflexivity.
Qed.

Lemma ascii_lower_is_ascii c : Py.is_ascii (Py.ascii_lower c) = Py.is_ascii c.
Proof.
  unfold Py.ascii_lower, Py.is_ascii_upper, Py.is_ascii.
  destruct ((65 <=? c) && (c <=? 90)) eqn:E; [|reflexivity].
  apply andb_true_iff in E as [_ E2]. apply N.leb_le in E2.
  transitivity true; [apply N.ltb_lt | symmetry; apply N.ltb_lt]; lia.
Qed.

Lemma py_lower_ascii_lower u (s : list N) :
  py_lower u (map Py.ascii_lower s) = py_lower u s.
Proof.
  unfold py_lower. induction s as [|c s IH]; [reflexivity|].
  cbn [map flat_map]. rewrite IH, ascii_lower_is_ascii, ascii_lower_idem.
  destruct (Py.is_ascii c) eqn:E; [reflexivity|].
  replace (Py.ascii_lower c) with c; [reflexivity|].
  unfold Py.ascii_lower, Py.is_ascii_upper, Py.is_ascii in *.
  apply N.ltb_ge in E.
  replace (c <=? 90) with false by (symmetry; apply N.leb_gt; lia).
  rewrite andb_false_r. reflexivity.
Qed.

Lemma contains_dot_lower (s : list N) :
  Py.contains_char DOT (map Py.ascii_lower s) = Py.contains_char DOT s.
Proof.
  unfold Py.contains_char. induction s as [|c s IH]; [reflexivity|].
  cbn [map existsb]. rewrite IH, (N.eqb_sym DOT), ascii_lower_dot, (N.eqb_sym c).
  reflexivity.
Qed.

Lemma rsplit1_rev_lower (acc r : list N) :
  Py.rsplit1_rev DOT (map Py.ascii_lower acc) (map Py.ascii_lower r)
  = map (map Py.ascii_lower) (Py.rsplit1_rev DOT acc r).
Proof.
  revert acc; induction r as [|c r IH]; intros acc; [reflexivity|].
  cbn [map Py.rsplit1_rev]. rewrite ascii_lower_dot.
  destruct (c =? DOT).
  - cbn [map]. rewrite map_rev. reflexivity.
  - apply (IH (c :: acc)).
Qed.

Lemma is_allowed_file_lower u (f : list N) :
  is_allowed_file u (map Py.ascii_lower f) = is_allowed_file u f.
Proof.
  unfold is_allowed_file, Py.rsplit1.
  rewrite contains_dot_lower, <- map_rev.
  pose proof (rsplit1_rev_lower [] (rev f)) as R.
  change (map Py.ascii_lower []) with (@nil N) in R.
  rewrite R, nth_error_map.
  destruct (nth_error (Py.rsplit1_rev DOT [] (rev f)) 1) as [ext|]; [|reflexivity].
  cbn [option_map]. rewrite py_lower_ascii_lower. reflexivity.
Qed.

(** X12: [is_allowed_file] does not see the case of ASCII letters: two
    names that differ only in the case of such letters, anywhere in the
    name, are both allowed or both refused. *)
Theorem is_allowed_file_ignores_case u (f g : list N) :
  map Py.ascii_lower f = map Py.ascii_lower g ->
  is_allowed_file u f = is_allowed_file u g.
Proof.
  intros E. rewrite <- (is_allowed_file_lower u f), <- (is_allowed_file_lower u g), E.
  reflexivity.
Qed.

Lemma is_allowed_file_ignores_case_witness :
  is_allowed_file sample_ucd (s2p "Holiday.JPeG")
  = is_allowed_file sample_ucd (s2p "hOLIDAY.jpeg").
Proof.
  apply (is_allowed_file_ignores_case sample_ucd (s2p "Holiday.JPeG")
           (s2p "hOLIDAY.jpeg")).
  reflexivity.
Defined.

Lemma py_lower_alpha u (ext : list N) :
  Forall (fun c => is_ascii_alpha c = true) ext ->
  py_lower u ext = map Py.ascii_lower ext.
Proof.
  unfold py_lower. induction 1 as [|c ext Hc _ IH]; [reflexivity|].
  cbn [flat_map map]. rewrite IH.
  rewrite (key_char_ascii c (alpha_key_char c Hc)). reflexivity.
Qed.

Lemma allowed_length (s : list N) :
  Py.mem s ALLOWED_EXTENSIONS = true -> (3 <= length s <= 4)%nat.
Proof.
  unfold Py.mem, ALLOWED_EXTENSIONS. cbn [existsb]. rewrite !orb_true_iff.
  intros H. repeat destruct H as [H | H]; try discriminate;
    apply eqb_eq in H; subst s; cbn; lia.
Qed.

(** X13: a name that [is_allowed_file] accepts is some base name, a '.'
    and an extension of three or four ASCII letters whose lowercase is one
    of the seven; no code point outside ASCII gets an extension accepted,
    and the base name, with any dots of its own, plays no part: every name
    with that extension is accepted. *)
Theorem allowed_names_shape u (f : list N) :
  lower_table_ok u ->
  is_allowed_file u f = true ->
  exists pre ext,
    f = pre ++ DOT :: ext
    /\ Forall (fun c => is_ascii_alpha c = true) ext
    /\ (3 <= length ext <= 4)%nat
    /\ Py.mem (map Py.ascii_lower ext) ALLOWED_EXTENSIONS = true
    /\ forall pre', is_allowed_file u (pre' ++ DOT :: ext) = true.
Proof.
  intros Hu Hallowed.
  apply is_allowed_file_iff in Hallowed as (pre & ext & -> & Hno & Hmem).
  destruct (allowed_ext_alpha u ext Hu Hmem) as [_ Halpha].
  exists pre, ext. split; [reflexivity|]. split; [exact Halpha|].
  rewrite (py_lower_alpha u ext Halpha) in Hmem.
  split; [|split; [exact Hmem|]].
  - rewrite <- (length_map Py.ascii_lower). apply allowed_length, Hmem.
  - intros pre'. apply is_allowed_file_iff. exists pre', ext.
    rewrite (py_lower_alpha u ext Halpha). auto.
Qed.

Lemma allowed_names_shape_witness :
  exists pre ext,
    s2p "archive.tar.TIFF" = pre ++ DOT :: ext
    /\ (3 <= length ext <= 4)%nat
    /\ is_allowed_file sample_ucd (s2p "x.exe" ++ DOT :: ext) = true.
Proof.
  destruct (allowed_names_shape sample_ucd (s2p "archive.tar.TIFF") sample_ucd_ok
              eq_refl)
    as (pre & ext & Hf & _ & Hlen & _ & Hany).
  exists pre, ext. auto.
Defined.

(** ** Bodies over the size cap *)

(** X14: a request whose body is longer than MAX_CONTENT_LENGTH is
    answered by the [except] clause of [upload]: status 500, not 413 or
    400, with the text of RequestEntityTooLarge as the error; the answer is
    the same whatever the form holds, and nothing is asked of the store. *)
Theorem oversize_upload_answers_500 u p cc request w :
  MAX_CONTENT_LENGTH < content_length request ->
  upload u p cc request w
  = (inr (error_body (s2p "413 Request Entity Too Large: The data value transmitted exceeds the capacity limit."),
          500), w)
  /\ forall request',
       MAX_CONTENT_LENGTH < content_length request' ->
       fst (upload u p cc request' w) = fst (upload u p cc request w).
Proof.
  intros Hbig. split; [apply (upload_oversize u p cc request w Hbig)|].
  intros request' Hbig'.
  rewrite (upload_oversize u p cc request w Hbig),
    (upload_oversize u p cc request' w Hbig').
  reflexivity.
Qed.

Lemma oversize_upload_answers_500_witness :
  status_of (upload sample_ucd posix (Some sample_client) oversize_request
               sample_world) = Some 500.
Proof.
  destruct (oversize_upload_answers_500 sample_ucd posix (Some sample_client)
              oversize_request sample_world eq_refl) as [H _].
  rewrite H. reflexivity.
Defined.

(** ** Sequences of requests *)

(** What a 200 of [upload] says of the world it leaves. *)
Lemma upload_ok_inv u p c request w (U : list N) w' :
  upload u p (Some c) request w = (inr (ok_url_body U, 200), w') ->
  exists f b,
    form_file request = Some f
    /\ U = blob_url c (blob_name_at u p (now w) (filename f))
    /\ container w' = <[blob_name_at u p (now w) (filename f) := b]> (container w)
    /\ faults w' = tail (faults w)
    /\ now w' = now w.
Proof.
  intros Hup.
  destruct (upload_cases u p (Some c) request w)
    as [(msg & st & E & Hst)
       | (c' & f & ct & Hc & Hcap & Hfile & Hallowed & Hct & Himg)].
  { exfalso. rewrite E in Hup. unfold error_body, ok_url_body in Hup.
    discriminate Hup. }
  injection Hc as <-.
  pose proof (upload_accepted u p c request w f ct Hcap Hfile Hallowed Hct Himg) as Hrun.
  cbv zeta in Hrun. rewrite Hrun in Hup.
  destruct (next_fault w);
    [exfalso; unfold error_body, ok_url_body in Hup; discriminate Hup|].
  injection Hup as HU Hw. subst U w'.
  exists f, {| blob_bytes := stream f; blob_content_type := ct |}.
  repeat split; auto.
Qed.

Lemma listing_recent_first u p c w d1 d2 (f1 f2 : list N) :
  datetime_ok d1 -> datetime_ok d2 -> chron_leb d2 d1 = false ->
  is_Some (container w !! blob_name_at u p d1 f1) ->
  is_Some (container w !! blob_name_at u p d2 f2) ->
  exists l1 l2 l3,
    listing c w = l1 ++ blob_url c (blob_name_at u p d2 f2)
                     :: l2 ++ blob_url c (blob_name_at u p d1 f1) :: l3.
Proof.
  intros H1 H2 Hlt Hk1 Hk2.
  apply sorted_before.
  - apply sort_reverse_sorted.
  - apply listing_elem. eauto.
  - apply listing_elem. eauto.
  - unfold blob_url. rewrite !leb_app_prefix. apply key_order; assumption.
Qed.

(** X15: of two uploads answered 200, the second made at a later second
    of the clock, the next successful [gallery] lists the URL of the second
    before the URL of the first. *)
Theorem newer_upload_listed_first u p c r1 r2 w d2 (U1 U2 : list N) w1 w2 :
  datetime_ok (now w) -> datetime_ok d2 ->
  chron_leb d2 (now w) = false ->
  upload u p (Some c) r1 w = (inr (ok_url_body U1, 200), w1) ->
  upload u p (Some c) r2 (set_now d2 w1) = (inr (ok_url_body U2, 200), w2) ->
  next_fault w2 = None ->
  exists l1 l2 l3,
    fst (gallery (Some c) w2)
    = inr (gallery_body (l1 ++ U2 :: l2 ++ U1 :: l3), 200).
Proof.
  intros Hd1 Hd2 Hlt Hup1 Hup2 Hfault.
  apply upload_ok_inv in Hup1 as (f1 & b1 & _ & -> & Hc1 & _ & _).
  apply upload_ok_inv in Hup2 as (f2 & b2 & _ & -> & Hc2 & _ & _).
  cbn [now container set_now] in Hc2.
  destruct (listing_recent_first u p c w2 (now w) d2 (filename f1) (filename f2)
              Hd1 Hd2 Hlt) as (l1 & l2 & l3 & E).
  - rewrite Hc2, Hc1, lookup_insert. case_decide; [eexists; reflexivity|].
    rewrite lookup_insert_eq. eexists. reflexivity.
  - rewrite Hc2, lookup_insert_eq. eexists. reflexivity.
  - exists l1, l2, l3. rewrite gallery_run, Hfault.
    transitivity (inr (gallery_body (listing c w2), 200) : Exn + Response);
      [reflexivity|].
    rewrite E. reflexivity.
Qed.

Lemma newer_upload_listed_first_witness :
  exists l1 l2 l3,
    fst (gallery (Some sample_client)
           (snd (upload sample_ucd posix (Some sample_client) second_request
                   (set_now next_second
                      (snd (upload sample_ucd posix (Some sample_client)
                              sample_request sample_world))))))
    = inr (gallery_body
             (l1 ++ (url sample_client ++ s2p "/" ++ s2p "20250102T030406-my_photo.PNG")
                 :: l2 ++ (url sample_client ++ s2p "/" ++ s2p "20250102T030405-my_photo.PNG")
                 :: l3), 200).
Proof.
  apply (newer_upload_listed_first sample_ucd posix sample_client sample_request
           second_request sample_world next_second _ _
           (snd (upload sample_ucd posix (Some sample_client) sample_request
                   sample_world))).
  - unfold datetime_ok, sample_world, sample_now. cbn. lia.
  - unfold datetime_ok, next_second. cbn. lia.
  - reflexivity.
  - vm_compute. reflexivity.
  - vm_compute. reflexivity.
  - reflexivity.
Defined.

(** ** What sanitization keeps *)
























Example secure_filename_separator :
  secure_filename sample_ucd posix (s2p "my/photo.png") = s2p "my_photo.png".
Proof. vm_compute. reflexivity. Qed.



(** X16: the answer of a successful [gallery] does not depend on the
    order in which the store lists the blobs: building the URLs and
    sorting them, as lines 93 to 96 do, from the stored names in any order
    gives the list that [gallery] returns. *)
Theorem gallery_ignores_listing_order c w (names : list (list N)) :
  next_fault w = None ->
  Permutation names (map fst (map_to_list (container w))) ->
  fst (gallery (Some c) w)
  = inr (gallery_body
           (sort_reverse (map (fun name => url c ++ s2p "/" ++ name) names)),
         200).
Proof.
  intros Hfault Hperm. rewrite gallery_run, Hfault. cbn [fst].
  do 3 f_equal.
  apply (StronglySorted_unique str_ge); try apply sort_reverse_sorted.
  rewrite !sort_reverse_perm. apply Permutation_map. symmetry. exact Hperm.
Qed.

Lemma gallery_ignores_listing_order_witness :
  fst (gallery (Some sample_client) two_blob_world)
  = inr (gallery_body
           (sort_reverse
              (map (fun name => url sample_client ++ s2p "/" ++ name)
                   [s2p "20250101T000000-a.png"; s2p "20250102T000000-b.png"])),
         200)
  /\ fst (gallery (Some sample_client) two_blob_world)
     = inr (gallery_body
              (sort_reverse
                 (map (fun name => url sample_client ++ s2p "/" ++ name)
                      [s2p "20250102T000000-b.png"; s2p "20250101T000000-a.png"])),
            200).
Proof.
  split.
  - apply (gallery_ignores_listing_order sample_client two_blob_world); [reflexivity|].
    vm_compute. first [apply Permutation_refl | apply perm_swap].
  - apply (gallery_ignores_listing_order sample_client two_blob_world); [reflexivity|].
    vm_compute. first [apply Permutation_refl | apply perm_swap].
Defined.
